(** * THINKER-GOAT: the command dispatcher, tools, goals, memory and mood

    A shallow embedding of [thinker_goat.py] and the properties of its
    natural-language specification, settled against the code.

    Conventions of the embedding.
    - Python [float] is IEEE binary64, which is Rocq's primitive [float]:
      comparisons, sums and products are the machine's, NaN and the
      infinities included.
    - Python [int] is [Z]; [str] is [string], read as ASCII text: case
      mapping, digits and whitespace beyond ASCII are not modelled.
    - A method that mutates [self] takes the object's state and returns the
      new state next to the value it returns.
    - [datetime.now().isoformat()] is an argument [now] of the operations
      that read the clock.
    - A raised exception is a value of [PyExn]; code that can raise returns
      a [Result].

    The first part is the model, class by class; the second part holds the
    properties. *)

From Stdlib Require Import ZArith String Ascii List Bool Lia Floats.
From Stdlib Require Import Sorting.Sorted.
From stdpp Require Import base option list gmap strings pretty.

Local Open Scope Z_scope.
Local Open Scope string_scope.

(* A decimal literal such as [0.1] denotes the nearest binary64 value, as it
   does in Python. *)
Set Warnings "-inexact-float".

(** * The model *)

(** ** Exceptions and results *)

Inductive PyExn : Type :=
| SyntaxError
| ValueError
| TypeError
| ZeroDivisionError
| IndexError
| FileNotFoundError.

Inductive Result (A : Type) : Type :=
| Ok (a : A)
| Raise (e : PyExn).
Arguments Ok {A} a.
Arguments Raise {A} e.

#[global] Instance Result_ret : MRet Result := fun _ a => Ok a.
#[global] Instance Result_bind : MBind Result := fun _ _ k r =>
  match r with
  | Ok a => k a
  | Raise e => Raise e
  end.

(** ** Floats: Python's [min], [max] and comparisons *)

Module PyFloat.

(** [max(a, b)] keeps [a] unless [b > a]; [min(a, b)] keeps [a] unless
    [b < a] (builtin [min]/[max] over two positional arguments). *)
Definition py_max (a b : float) : float := if (a <? b)%float then b else a.
Definition py_min (a b : float) : float := if (b <? a)%float then b else a.

(** [x >= y] and [x > y] on floats. *)
Definition geb (x y : float) : bool := (y <=? x)%float.
Definition gtb (x y : float) : bool := (y <? x)%float.

(** [float(n)] of an [int]: the nearest float. *)
Definition of_int (n : Z) : float :=
  SF2Prim (binary_normalize prec emax n 0 false).

(** [clamp lo hi x]: the value of [x] held within [[lo, hi]]. *)
Definition clamp (lo hi x : float) : float :=
  if (x <=? lo)%float then lo else if (hi <=? x)%float then hi else x.

(** The comparison of two floats through their specification. *)
Definition fcmp (x y : float) : option comparison :=
  SFcompare (Prim2SF x) (Prim2SF y).

(** Composition of two comparisons along a chain [a, b, c]. *)
Definition cmp_then (c1 c2 : comparison) : comparison :=
  match c1 with Eq => c2 | _ => c1 end.

(** A float that is a finite number other than zero. *)
Definition finite_nonzero (k : float) : Prop :=
  exists s m e, Prim2SF k = S754_finite s m e.

(** A float that is a finite number (zero included). *)
Definition finite (x : float) : Prop :=
  is_nan x = false /\ forall s, Prim2SF x <> S754_infinity s.

End PyFloat.

(** ** FeelingEngine: the mood state *)

Module Mood.
Import PyFloat.
Local Open Scope float_scope.

Record FeelingEngine : Type := {
  energy : float;
  calm : float;
  curiosity : float;
  frustration : float
}.

(** [FeelingEngine.__init__] *)
Definition init : FeelingEngine :=
  {| energy := 75.0; calm := 0.3; curiosity := 0.6; frustration := 0.1 |}.

(** [FeelingEngine.react] *)
Definition react (self : FeelingEngine) (reward : float) : FeelingEngine :=
  {| energy := py_max 0.0 (py_min 100.0 (energy self + 2.0 * reward));
     calm := calm self;
     curiosity := py_max 0.0 (py_min 1.0 (curiosity self + 0.1 * reward));
     frustration := frustration self |}.

(** [FeelingEngine.get_mood] *)
Definition get_mood (self : FeelingEngine) : string :=
  if gtb (energy self) 80 then "energetic"%string
  else if gtb (curiosity self) 0.7 then "curious"%string
  else if energy self <? 30 then "tired"%string
  else "calm"%string.

(** A finite sequence of [react] calls, first reward first. *)
Definition react_all (self : FeelingEngine) (rewards : list float)
  : FeelingEngine :=
  fold_left react rewards self.

(** Energy within [[0, 100]] and curiosity within [[0, 1]]. *)
Definition in_range (self : FeelingEngine) : Prop :=
  (0.0 <=? energy self) = true /\ (energy self <=? 100.0) = true /\
  (0.0 <=? curiosity self) = true /\ (curiosity self <=? 1.0) = true.

End Mood.

(** ** GoalSystem: the bounded list of goals *)

Module Goals.
Import PyFloat.

(** A goal dictionary: the keys ['id'], ['description'], ['priority'],
    ['created'] and ['progress'] set by [add_goal], and ['completed'], which
    [complete_goal] adds. *)
Record Goal : Type := {
  id : Z;
  description : string;
  priority : Z;
  created : string;
  progress : float;
  completed : option string
}.

(** [goal['progress'] = value] *)
Definition with_progress (goal : Goal) (value : float) : Goal :=
  {| id := id goal; description := description goal;
     priority := priority goal; created := created goal;
     progress := value; completed := completed goal |}.

(** [goal['completed'] = now] *)
Definition completed_at (goal : Goal) (now : string) : Goal :=
  {| id := id goal; description := description goal;
     priority := priority goal; created := created goal;
     progress := progress goal; completed := Some now |}.

Record GoalSystem : Type := {
  active_goals : list Goal;
  completed_goals : list Goal;
  max_goals : Z
}.

(** [GoalSystem.__init__] *)
Definition init : GoalSystem :=
  {| active_goals := []; completed_goals := []; max_goals := 5 |}.

(** [len(self.active_goals)] *)
Definition active_count (self : GoalSystem) : Z :=
  Z.of_nat (length (active_goals self)).

Definition limit_reached : string := "Cannot add more goals - limit reached".
Definition goal_not_found : string := "Goal not found".

(** [GoalSystem.add_goal] *)
Definition add_goal (self : GoalSystem) (description : string) (priority : Z)
    (now : string) : GoalSystem * string :=
  if (max_goals self <=? active_count self)%Z then (self, limit_reached)
  else
    let goal := {| id := active_count self + 1;
                   description := description;
                   priority := priority;
                   created := now;
                   progress := 0.0%float;
                   completed := None |} in
    ({| active_goals := active_goals self ++ [goal];
        completed_goals := completed_goals self;
        max_goals := max_goals self |},
     "Goal added: " ++ description).

(** [self.active_goals.pop(i)] at the first index [i] whose goal has the id:
    the goal popped and the list left. *)
Fixpoint pop_first (goal_id : Z) (goals : list Goal)
  : option (Goal * list Goal) :=
  match goals with
  | [] => None
  | goal :: rest =>
      if (id goal =? goal_id)%Z then Some (goal, rest)
      else match pop_first goal_id rest with
           | Some (found, rest') => Some (found, goal :: rest')
           | None => None
           end
  end.

(** [GoalSystem.complete_goal] *)
Definition complete_goal (self : GoalSystem) (goal_id : Z) (now : string)
  : GoalSystem * string :=
  match pop_first goal_id (active_goals self) with
  | Some (goal, rest) =>
      let completed_goal := completed_at goal now in
      ({| active_goals := rest;
          completed_goals := completed_goals self ++ [completed_goal];
          max_goals := max_goals self |},
       "Goal completed: " ++ description completed_goal)
  | None => (self, goal_not_found)
  end.

(** [goal['progress'] = value] on the first goal of the list with the id:
    the list after the assignment, or [None] when no goal has the id. *)
Fixpoint assign_progress (goal_id : Z) (value : float) (goals : list Goal)
  : option (list Goal) :=
  match goals with
  | [] => None
  | goal :: rest =>
      if (id goal =? goal_id)%Z then Some (with_progress goal value :: rest)
      else option_map (cons goal) (assign_progress goal_id value rest)
  end.

(** [GoalSystem.update_progress]: the loop stops at the first goal with the
    id, stores the clamped progress in it, completes the goal when the
    stored progress is [>= 1.0], and returns. *)
Definition update_progress (self : GoalSystem) (goal_id : Z)
    (progress : float) (now : string) : GoalSystem * string :=
  let stored := py_max 0.0 (py_min 1.0 progress) in
  match assign_progress goal_id stored (active_goals self) with
  | Some goals =>
      let self1 := {| active_goals := goals;
                      completed_goals := completed_goals self;
                      max_goals := max_goals self |} in
      let self2 := if geb stored 1.0 then fst (complete_goal self1 goal_id now)
                   else self1 in
      (self2, "Progress updated for goal " ++ pretty goal_id)
  | None => (self, goal_not_found)
  end.

(** The operations of the tracker, and a run of them. *)
Inductive Op : Type :=
| AddGoal (description : string) (priority : Z)
| UpdateProgress (goal_id : Z) (progress : float)
| CompleteGoal (goal_id : Z).

Definition step (self : GoalSystem) (op : Op) (now : string)
  : GoalSystem * string :=
  match op with
  | AddGoal description priority => add_goal self description priority now
  | UpdateProgress goal_id progress =>
      update_progress self goal_id progress now
  | CompleteGoal goal_id => complete_goal self goal_id now
  end.

(** Runs the operations in order, each at its own clock reading. *)
Fixpoint run (self : GoalSystem) (ops : list (Op * string)) : GoalSystem :=
  match ops with
  | [] => self
  | (op, now) :: ops' => run (fst (step self op now)) ops'
  end.

(** No goal of the list carries the id. *)
Definition absent (goal_id : Z) (goals : list Goal) : Prop :=
  Forall (fun goal => id goal <> goal_id) goals.

(** A tracker holding five active goals, the limit of [GoalSystem()]. *)
Definition five_goals : GoalSystem :=
  run init [(AddGoal "a" 1, "t1"); (AddGoal "b" 1, "t2"); (AddGoal "c" 1, "t3");
            (AddGoal "d" 1, "t4"); (AddGoal "e" 1, "t5")].

(** The tracker after: add "a", add "b", complete goal 1, add "c". *)
Definition reused_id : GoalSystem :=
  run init [(AddGoal "a" 1, "t1"); (AddGoal "b" 1, "t2");
            (CompleteGoal 1, "t3"); (AddGoal "c" 1, "t4")].

End Goals.

(** ** Python strings

    The [str] methods the program calls, over ASCII text. *)

Module PyStr.

Definition code (c : ascii) : N := N_of_ascii c.

(** [c.isspace()]: tab, line feed, vertical tab, form feed, carriage return,
    the separators 0x1c to 0x1f, and the space. *)
Definition is_space (c : ascii) : bool :=
  ((9 <=? code c) && (code c <=? 13) || (28 <=? code c) && (code c <=? 32))%N.

Definition is_upper (c : ascii) : bool :=
  ((65 <=? code c) && (code c <=? 90))%N.

Definition is_digit (c : ascii) : bool :=
  ((48 <=? code c) && (code c <=? 57))%N.

Definition lower_char (c : ascii) : ascii :=
  if is_upper c then ascii_of_N (code c + 32) else c.

(** [s.lower()] *)
Fixpoint lower (s : string) : string :=
  match s with
  | EmptyString => EmptyString
  | String c s' => String (lower_char c) (lower s')
  end.

Fixpoint lstrip (s : string) : string :=
  match s with
  | EmptyString => EmptyString
  | String c s' => if is_space c then lstrip s' else s
  end.

Fixpoint rstrip (s : string) : string :=
  match s with
  | EmptyString => EmptyString
  | String c s' =>
      match rstrip s' with
      | EmptyString => if is_space c then EmptyString else String c EmptyString
      | r => String c r
      end
  end.

(** [s.strip()] *)
Definition strip (s : string) : string := rstrip (lstrip s).

(** [s.startswith(p)] *)
Fixpoint startswith (s p : string) {struct p} : bool :=
  match p with
  | EmptyString => true
  | String a p' =>
      match s with
      | EmptyString => false
      | String b s' => Ascii.eqb a b && startswith s' p'
      end
  end.

(** [s[n:]] for a literal [n >= 0] *)
Fixpoint slice_from (n : nat) (s : string) : string :=
  match n, s with
  | O, _ => s
  | S n', String _ s' => slice_from n' s'
  | S _, EmptyString => EmptyString
  end.

(** [sub in s] *)
Fixpoint contains (sub s : string) : bool :=
  startswith s sub ||
  match s with
  | EmptyString => false
  | String _ s' => contains sub s'
  end.

(** The fields of [s] between whitespace characters, empty ones included. *)
Fixpoint fields (s : string) : list string :=
  match s with
  | EmptyString => [EmptyString]
  | String c s' =>
      if is_space c then EmptyString :: fields s'
      else match fields s' with
           | w :: ws => String c w :: ws
           | [] => [String c EmptyString]
           end
  end.

Definition nonempty (s : string) : bool :=
  match s with EmptyString => false | _ => true end.

(** [s.split()]: the maximal runs of characters that are not whitespace. *)
Definition split (s : string) : list string := filter nonempty (fields s).

(** [s.split(' ', 1)]: cut at the first space, if there is one. *)
Fixpoint cut_at_space (s : string) : option (string * string) :=
  match s with
  | EmptyString => None
  | String c s' =>
      if Ascii.eqb c " " then Some (EmptyString, s')
      else match cut_at_space s' with
           | Some (a, b) => Some (String c a, b)
           | None => None
           end
  end.

Definition split_space_1 (s : string) : list string :=
  match cut_at_space s with
  | Some (a, b) => [a; b]
  | None => [s]
  end.

(** [sep.join(parts)] *)
Fixpoint join (sep : string) (parts : list string) : string :=
  match parts with
  | [] => EmptyString
  | [p] => p
  | p :: rest => p ++ sep ++ join sep rest
  end.

Definition hex_digit (n : N) : ascii :=
  if (n <? 10)%N then ascii_of_N (48 + n) else ascii_of_N (87 + n).

(** [repr] of one character inside the quotes [quote]. *)
Definition repr_char (quote c : ascii) : string :=
  if Ascii.eqb c quote || Ascii.eqb c "\" then String "\" (String c EmptyString)
  else if (code c =? 9)%N then "\t"
  else if (code c =? 10)%N then "\n"
  else if (code c =? 13)%N then "\r"
  else if (code c <? 32)%N || (code c =? 127)%N then
    String "\" (String "x" (String (hex_digit (code c / 16))
                             (String (hex_digit (code c mod 16)) EmptyString)))
  else String c EmptyString.

Fixpoint repr_body (quote : ascii) (s : string) : string :=
  match s with
  | EmptyString => EmptyString
  | String c s' => repr_char quote c ++ repr_body quote s'
  end.

Definition squote : ascii := "'".
Definition dquote : ascii := ascii_of_N 34.

Fixpoint has_char (q : ascii) (s : string) : bool :=
  match s with
  | EmptyString => false
  | String c s' => Ascii.eqb c q || has_char q s'
  end.

(** [repr(s)] of a [str]: double quotes when [s] has a single quote and no
    double quote, single quotes otherwise. *)
Definition repr (s : string) : string :=
  let quote := if has_char squote s && negb (has_char dquote s)
               then dquote else squote in
  String quote (repr_body quote s ++ String quote EmptyString).

End PyStr.

(** ** VectorMemory: the record store and its keyword search *)

Module Memory.
Import PyFloat.

(** The values the program stores in a memory dictionary. *)
Inductive PyVal : Type :=
| VStr (s : string)
| VBool (b : bool)
| VNone.

#[global] Instance PyVal_eq_dec : EqDecision PyVal.
Proof. solve_decision. Defined.

(** A memory dictionary: its items in insertion order, the keys distinct. *)
Definition Dict : Type := list (string * PyVal).

(** [repr(v)] *)
Definition repr_val (v : PyVal) : string :=
  match v with
  | VStr s => PyStr.repr s
  | VBool true => "True"
  | VBool false => "False"
  | VNone => "None"
  end.

(** [str(memory)] *)
Definition str_dict (memory : Dict) : string :=
  "{" ++ PyStr.join ", "
           (map (fun item =>
                   PyStr.repr (fst item) ++ ": " ++ repr_val (snd item))
                memory)
      ++ "}".

(** [d1 == d2]: the same keys with the same values, in any order. *)
Definition dict_eqb (d1 d2 : Dict) : bool :=
  bool_decide ((list_to_map d1 : gmap string PyVal) = list_to_map d2).

Record VectorMemory : Type := {
  memories : list Dict;
  importance_scores : list float;
  dimensions : Z
}.

(** [VectorMemory.__init__] *)
Definition init : VectorMemory :=
  {| memories := []; importance_scores := []; dimensions := 10 |}.

(** [VectorMemory.add_memory] *)
Definition add_memory (self : VectorMemory) (memory : Dict)
    (importance : float) : VectorMemory :=
  {| memories := memories self ++ [memory];
     importance_scores := importance_scores self ++ [importance];
     dimensions := dimensions self |}.

(** The score of one record: the number of query words found in the
    record's lowercased text, times [1 + importance]. *)
Definition score_of (words : list string) (memory : Dict)
    (importance : float) : float :=
  let memory_text := PyStr.lower (str_dict memory) in
  let score :=
    length (filter (fun word => PyStr.contains word memory_text) words) in
  (of_int (Z.of_nat score) * (1 + importance))%float.

(** The scoring loop of [search_similar], from index [i] on. *)
Fixpoint score_loop (self : VectorMemory) (words : list string) (i : nat)
    (rest : list Dict) : Result (list (float * Dict)) :=
  match rest with
  | [] => Ok []
  | memory :: rest' =>
      match importance_scores self !! i with
      | None => Raise IndexError
      | Some importance =>
          tail ← score_loop self words (S i) rest';
          Ok ((score_of words memory importance, memory) :: tail)
      end
  end.

(** [a < b] on [(score, memory)] tuples: the first items that are not [==]
    decide; two dictionaries are never ordered. *)
Definition tuple_lt (a b : float * Dict) : Result bool :=
  if negb (fst a =? fst b)%float then Ok (fst a <? fst b)%float
  else if negb (dict_eqb (snd a) (snd b)) then Raise TypeError
  else Ok false.

(** [list.sort]: a stable sort that decides every placement by [<] on the
    elements, the one operation the sort applies to them; an exception
    raised by a comparison ends the sort. Each element in turn is the
    pivot, placed in the sorted prefix before the first element it is less
    than. *)
Fixpoint sort_insert (pivot : float * Dict) (sorted : list (float * Dict))
  : Result (list (float * Dict)) :=
  match sorted with
  | [] => Ok [pivot]
  | p :: rest =>
      less ← tuple_lt pivot p;
      if (less : bool) then Ok (pivot :: p :: rest)
      else (placed ← sort_insert pivot rest; Ok (p :: placed))
  end.

Fixpoint sort_from (sorted todo : list (float * Dict))
  : Result (list (float * Dict)) :=
  match todo with
  | [] => Ok sorted
  | pivot :: todo' =>
      sorted' ← sort_insert pivot sorted; sort_from sorted' todo'
  end.

Definition list_sort (l : list (float * Dict)) : Result (list (float * Dict)) :=
  sort_from [] l.

(** [l.sort(reverse=True)]: the list is reversed, sorted and reversed
    again. *)
Definition sort_reverse (l : list (float * Dict))
  : Result (list (float * Dict)) :=
  sorted ← list_sort (rev l); Ok (rev sorted).

(** [l[:k]] *)
Definition slice_to {A : Type} (k : Z) (l : list A) : list A :=
  if (k <? 0)%Z then take (Z.to_nat (Z.of_nat (length l) + k)) l
  else take (Z.to_nat k) l.

(** [VectorMemory.search_similar] *)
Definition search_similar (self : VectorMemory) (query : string) (top_k : Z)
  : Result (list Dict) :=
  let query := PyStr.lower query in
  scored_memories ← score_loop self (PyStr.split query) 0 (memories self);
  scored_memories ← sort_reverse scored_memories;
  Ok (map snd
        (filter (fun sm => gtb (fst sm) 0 = true)
                (slice_to top_k scored_memories))).

(** The store after [add_memory] of each record in turn. *)
Definition store_of (records : list (Dict * float)) : VectorMemory :=
  fold_left (fun self r => add_memory self (fst r) (snd r)) records init.

(** The scored list of a store built by [add_memory]. *)
Definition scored (words : list string) (records : list (Dict * float))
  : list (float * Dict) :=
  map (fun r => (score_of words (fst r) (snd r), fst r)) records.

(** The relations between two scored records that the sort observes: the
    score is a number; the scores are in order; the scores are [==]; and
    equal scores come with equal dictionaries. *)
Definition number (a : float * Dict) : Prop := is_nan (fst a) = false.
Definition fle (a b : float * Dict) : Prop := (fst a <=? fst b)%float = true.
Definition tie (a b : float * Dict) : Prop := (fst a =? fst b)%float = true.
Definition agree (a b : float * Dict) : Prop :=
  tie a b -> dict_eqb (snd a) (snd b) = true.

(** A sorted prefix: ascending scores, all numbers, and equal scores only
    between equal dictionaries. *)
Definition sorted_prefix (l : list (float * Dict)) : Prop :=
  StronglySorted fle l /\ Forall number l /\
  forall a b, a ∈ l -> b ∈ l -> agree a b.

(** Two conversation records as [have_conversation] stores them. *)
Definition conv_hi : Dict :=
  [("type", VStr "conversation"); ("user_message", VStr "hi there");
   ("ai_response", VStr "Hello! Ready to learn something new?");
   ("timestamp", VStr "2024-01-01T10:00:00.000001"); ("mood", VStr "calm")].

Definition conv_rain : Dict :=
  [("type", VStr "conversation"); ("user_message", VStr "it may rain");
   ("ai_response", VStr "I'm processing that...");
   ("timestamp", VStr "2024-01-01T10:00:05.000002"); ("mood", VStr "calm")].

End Memory.

(** ** Python's [int] and [float] on text *)

Module PyParse.
Import PyStr.

Definition digit_val (c : ascii) : Z := Z.of_N (code c) - 48.

(** The longest run of digits at the head of [s], and the text left. *)
Fixpoint digit_run (s : string) : list Z * string :=
  match s with
  | String c s' =>
      if is_digit c then
        let (ds, rest) := digit_run s' in (digit_val c :: ds, rest)
      else ([], s)
  | EmptyString => ([], s)
  end.

Definition cons_digit (c : ascii) (r : option (list Z * string))
  : option (list Z * string) :=
  match r with
  | Some (ds, rest) => Some (digit_val c :: ds, rest)
  | None => None
  end.

(** A run of one or more digits in which a single underscore may stand
    between two digits: the digits read, most significant first, and the
    text left. *)
Fixpoint digits (s : string) : option (list Z * string) :=
  match s with
  | String c s' =>
      if is_digit c then
        match s' with
        | String u ((String d _) as tail) =>
            if Ascii.eqb u "_" && is_digit d then cons_digit c (digits tail)
            else if is_digit u then cons_digit c (digits s')
            else Some ([digit_val c], s')
        | String u EmptyString =>
            if is_digit u then cons_digit c (digits s')
            else Some ([digit_val c], s')
        | EmptyString => Some ([digit_val c], s')
        end
      else None
  | EmptyString => None
  end.

Definition number_of (ds : list Z) : Z :=
  fold_left (fun acc d => 10 * acc + d) ds 0.

(** An optional sign: [true] for [-]. *)
Definition sign (s : string) : bool * string :=
  match s with
  | String "-" s' => (true, s')
  | String "+" s' => (false, s')
  | _ => (false, s)
  end.

(** [int(s)] in base 10. *)
Definition py_int (s : string) : Result Z :=
  let (neg, body) := sign (strip s) in
  match digits body with
  | Some (ds, EmptyString) =>
      Ok (if neg then - number_of ds else number_of ds)
  | _ => Raise ValueError
  end.

(** The float nearest to [m * 10^e], ties to even, for [m > 0]. A negative
    [e] divides with 65 extra bits and a sticky bit, which rounds as the
    exact quotient does; texts far outside the range of binary64 go straight
    to infinity or zero. *)
Definition nearest_float (m e : Z) : float :=
  let magnitude := Z.of_nat (String.length (pretty m)) + e in
  if (310 <? magnitude)%Z then infinity
  else if (magnitude <? -330)%Z then 0%float
  else if (0 <=? e)%Z then
    SF2Prim (binary_normalize prec emax (m * 10 ^ e) 0 false)
  else
    let d := 10 ^ (- e) in
    let shift := Z.log2 d + 65 in
    let q := (m * 2 ^ shift) / d in
    let sticky := if ((m * 2 ^ shift) mod d =? 0)%Z then 0 else 1 in
    SF2Prim (binary_normalize prec emax (2 * q + sticky) (- (shift + 1)) false).

Definition of_decimal (neg : bool) (m e : Z) : float :=
  let magnitude :=
    if (m =? 0)%Z then 0%float else nearest_float m e in
  if neg then (- magnitude)%float else magnitude.

(** The digits of a fraction, if the text goes on with a point. *)
Definition fraction (s : string) : option (list Z * string) :=
  match s with
  | String "." s' =>
      match digits s' with
      | Some r => Some r
      | None => Some ([], s')
      end
  | _ => None
  end.

(** The exponent, if the text goes on with [e]. *)
Definition exponent (s : string) : option (Z * string) :=
  match s with
  | String c s' =>
      if Ascii.eqb (lower_char c) "e" then
        let (neg, body) := sign s' in
        match digits body with
        | Some (ds, rest) =>
            Some (if neg then - number_of ds else number_of ds, rest)
        | None => None
        end
      else None
  | EmptyString => None
  end.

(** The decimal number at the head of [s]: integer digits, fraction digits
    and the text left; one of the two digit lists is not empty. *)
Definition mantissa (s : string) : option (list Z * list Z * string) :=
  match digits s with
  | Some (ip, rest) =>
      match fraction rest with
      | Some (fp, rest') => Some (ip, fp, rest')
      | None => Some (ip, [], rest)
      end
  | None =>
      match s with
      | String "." s' =>
          match digits s' with
          | Some (fp, rest) => Some ([], fp, rest)
          | None => None
          end
      | _ => None
      end
  end.

(** [float(s)] *)
Definition py_float (s : string) : Result float :=
  let (neg, body) := sign (strip s) in
  let name := lower body in
  if String.eqb name "inf" || String.eqb name "infinity" then
    Ok (if neg then neg_infinity else infinity)
  else if String.eqb name "nan" then Ok nan
  else
    match mantissa body with
    | Some (ip, fp, rest) =>
        let m := number_of (ip ++ fp) in
        let scale := - Z.of_nat (length fp) in
        match rest with
        | EmptyString => Ok (of_decimal neg m scale)
        | _ =>
            match exponent rest with
            | Some (e, EmptyString) => Ok (of_decimal neg m (scale + e))
            | _ => Raise ValueError
            end
        end
    | None => Raise ValueError
    end.

End PyParse.

(** ** Python's [eval] on arithmetic text

    [eval] is the interpreter's. The model answers for blank text, which is
    a syntax error, and for integer arithmetic: a text of at most [limit]
    characters made of integer literals, [+], [-], [*], [//], parentheses
    and spaces. Such a text evaluates to an integer, raises
    [ZeroDivisionError] when it divides by zero, or is a syntax error when
    it is no expression. For any other text the model gives [None], the
    evaluation is outside it: a text with [/], [**] or a point, a literal
    with a leading zero, a call such as [2(3)], the empty parentheses, and
    the longer texts, where the interpreter's own limits (nesting of
    parentheses, depth of recursion, digits of an integer) come into
    play. *)

Module PyEval.
Import PyStr PyParse.

Inductive token : Type :=
| TNum (n : Z)
| TPlus
| TMinus
| TStar
| TFloorDiv
| TOpen
| TClose.

(** The longest text of arithmetic the model answers for. *)
Definition limit : nat := 100.

(** A decimal integer literal: no leading zero unless all digits are. *)
Definition literal (ds : list Z) : option Z :=
  match ds with
  | 0 :: _ => if (number_of ds =? 0)%Z then Some 0 else None
  | _ => Some (number_of ds)
  end.

(** The tokens of the text, the longest first: [//] before [/], [**]
    before [*]; [None] for a text with a token outside the model. *)
Fixpoint lex (fuel : nat) (s : string) : option (list token) :=
  match fuel with
  | O => None
  | S fuel' =>
      match s with
      | EmptyString => Some []
      | String c s' =>
          if Ascii.eqb c " " then lex fuel' s'
          else if Ascii.eqb c "+" then cons TPlus <$> lex fuel' s'
          else if Ascii.eqb c "-" then cons TMinus <$> lex fuel' s'
          else if Ascii.eqb c "(" then cons TOpen <$> lex fuel' s'
          else if Ascii.eqb c ")" then cons TClose <$> lex fuel' s'
          else if Ascii.eqb c "*" then
            match s' with
            | String "*" _ => None
            | _ => cons TStar <$> lex fuel' s'
            end
          else if Ascii.eqb c "/" then
            match s' with
            | String "/" s'' => cons TFloorDiv <$> lex fuel' s''
            | _ => None
            end
          else if is_digit c then
            match digit_run s with
            | (ds, rest) =>
                match rest with
                | String "." _ => None
                | String "_" _ => None
                | _ =>
                    match literal ds with
                    | Some n => cons (TNum n) <$> lex fuel' rest
                    | None => None
                    end
                end
            end
          else None
      end
  end.

(** An opening parenthesis after a literal or a closing parenthesis starts
    the arguments of a call; a closing parenthesis right after an opening
    one makes the empty tuple. *)
Fixpoint calls (toks : list token) : bool :=
  match toks with
  | [] => false
  | tok :: rest =>
      match tok, rest with
      | TNum _, TOpen :: _ => true
      | TClose, TOpen :: _ => true
      | TOpen, TClose :: _ => true
      | _, _ => calls rest
      end
  end.

(** What the parser makes of the tokens. *)
Inductive parsed (A : Type) : Type :=
| Parsed (a : A)
| Malformed
| Exhausted.
Arguments Parsed {A} a.
Arguments Malformed {A}.
Arguments Exhausted {A}.

(** The operators on values: an operand that raised, raises. *)
Definition negate (v : Result Z) : Result Z :=
  match v with Ok n => Ok (- n) | Raise e => Raise e end.

Definition binary (op : Z -> Z -> Result Z) (a b : Result Z) : Result Z :=
  match a, b with
  | Ok x, Ok y => op x y
  | Raise e, _ => Raise e
  | Ok _, Raise e => Raise e
  end.

Definition add (x y : Z) : Result Z := Ok (x + y).
Definition sub (x y : Z) : Result Z := Ok (x - y).
Definition mul (x y : Z) : Result Z := Ok (x * y).

(** [x // y]: the quotient rounded down. *)
Definition floordiv (x y : Z) : Result Z :=
  if (y =? 0)%Z then Raise ZeroDivisionError else Ok (x / y).

Inductive mode : Type :=
| Sum                          (* a sum: terms joined by [+] and [-] *)
| SumRest (acc : Result Z)
| Term                         (* a term: factors joined by [*], [//] *)
| TermRest (acc : Result Z)
| Factor.                      (* signs, then a literal or a group *)

(** The expression at the head of the tokens: its value and the tokens
    left. The text is compiled before it is evaluated, so the value is
    carried along as a result and an error of the syntax comes first. *)
Fixpoint parse (fuel : nat) (m : mode) (toks : list token)
  : parsed (Result Z * list token) :=
  match fuel with
  | O => Exhausted
  | S fuel' =>
      match m with
      | Sum =>
          match parse fuel' Term toks with
          | Parsed (v, rest) => parse fuel' (SumRest v) rest
          | other => other
          end
      | SumRest acc =>
          match toks with
          | TPlus :: rest =>
              match parse fuel' Term rest with
              | Parsed (v, rest') =>
                  parse fuel' (SumRest (binary add acc v)) rest'
              | other => other
              end
          | TMinus :: rest =>
              match parse fuel' Term rest with
              | Parsed (v, rest') =>
                  parse fuel' (SumRest (binary sub acc v)) rest'
              | other => other
              end
          | _ => Parsed (acc, toks)
          end
      | Term =>
          match parse fuel' Factor toks with
          | Parsed (v, rest) => parse fuel' (TermRest v) rest
          | other => other
          end
      | TermRest acc =>
          match toks with
          | TStar :: rest =>
              match parse fuel' Factor rest with
              | Parsed (v, rest') =>
                  parse fuel' (TermRest (binary mul acc v)) rest'
              | other => other
              end
          | TFloorDiv :: rest =>
              match parse fuel' Factor rest with
              | Parsed (v, rest') =>
                  parse fuel' (TermRest (binary floordiv acc v)) rest'
              | other => other
              end
          | _ => Parsed (acc, toks)
          end
      | Factor =>
          match toks with
          | TPlus :: rest => parse fuel' Factor rest
          | TMinus :: rest =>
              match parse fuel' Factor rest with
              | Parsed (v, rest') => Parsed (negate v, rest')
              | other => other
              end
          | TNum n :: rest => Parsed (Ok n, rest)
          | TOpen :: rest =>
              match parse fuel' Sum rest with
              | Parsed (v, TClose :: rest') => Parsed (v, rest')
              | Parsed _ => Malformed
              | other => other
              end
          | _ => Malformed
          end
      end
  end.

(** A result of the arithmetic: an integer, or the error of a division by
    zero. *)
Definition arithmetic (v : Result Z) : Prop :=
  match v with
  | Ok _ => True
  | Raise e => e = ZeroDivisionError
  end.

(** Text made of spaces only, the empty text included. *)
Fixpoint blank (s : string) : bool :=
  match s with
  | EmptyString => true
  | String c s' => Ascii.eqb c " " && blank s'
  end.

(** [eval(source)]: [Some (Ok n)] when the text evaluates to the integer
    [n], [Some (Raise e)] when its evaluation raises [e], [None] when the
    text is outside the model. *)
Definition py_eval (source : string) : option (Result Z) :=
  if blank source then Some (Raise SyntaxError)
  else if (limit <? String.length source)%nat then None
  else
    match lex (S (String.length source)) source with
    | Some toks =>
        if calls toks then None
        else
          match parse (4 * length toks + 4) Sum toks with
          | Parsed (v, []) => Some v
          | Parsed (_, _ :: _) => Some (Raise SyntaxError)
          | Malformed => Some (Raise SyntaxError)
          | Exhausted => None
          end
    | None => None
    end.

End PyEval.

(** ** Config *)

Module Configuration.

(** [Config], as [__init__] sets it and [load_from_file] overrides it. *)
Record Config : Type := {
  ai_name : string;
  use_tts : bool;
  tts_engine : string;
  learning_rate : float;
  memory_size : Z;
  tools_enabled : bool;
  max_goals : Z
}.

(** [Config.__init__] *)
Definition default : Config :=
  {| ai_name := "THINKER-GOAT"; use_tts := true; tts_engine := "espeak";
     learning_rate := 0.25; memory_size := 1000; tools_enabled := true;
     max_goals := 5 |}.

(** The default configuration with [max_goals] set to 3, as a
    [config.json] holding that one key leaves it. *)
Definition max_goals_3 : Config :=
  {| ai_name := "THINKER-GOAT"; use_tts := true; tts_engine := "espeak";
     learning_rate := 0.25; memory_size := 1000; tools_enabled := true;
     max_goals := 3 |}.

End Configuration.

(** ** ToolSystem *)

Module Tools.
Import PyStr PyEval.

(** A string a tool returns: a text the model spells out, or a prefix
    followed by [str(e)], the interpreter's message for the exception [e]
    that the tool caught. *)
Inductive Reply : Type :=
| Said (text : string)
| Failed (prefix : string) (e : PyExn).

(** The text files the file tools reach through [open]: the text of each
    file, in ASCII, under every path that names it; a path that is no key
    names nothing. *)
Definition FS : Type := gmap string string.

(** [open(filename, 'w')] and the write. The empty path names no file on
    any system. Whether another path can be written depends on the system
    (its directories and permissions, the paths that name one file): that
    is outside the model. *)
Definition open_write (fs : FS) (filename content : string)
  : option (Result FS) :=
  if String.eqb filename "" then Some (Raise FileNotFoundError) else None.

(** What a read in text mode makes of the text of a file: the line ends
    made of a carriage return, with or without a line feed after it,
    become a line feed. *)
Fixpoint universal_newlines (s : string) : string :=
  match s with
  | EmptyString => EmptyString
  | String c s' =>
      if (code c =? 13)%N then
        match s' with
        | String d s'' =>
            if (code d =? 10)%N then String d (universal_newlines s'')
            else String (ascii_of_N 10) (universal_newlines s')
        | EmptyString => String (ascii_of_N 10) EmptyString
        end
      else String c (universal_newlines s')
  end.

(** [open(filename, 'r')] and the read. *)
Definition open_read (fs : FS) (filename : string) : Result string :=
  match fs !! filename with
  | Some content => Ok (universal_newlines content)
  | None => Raise FileNotFoundError
  end.

Record ToolSystem : Type := {
  config : Configuration.Config;
  available_tools : list string
}.

(** [ToolSystem.__init__] with the names [_setup_tools] registers. *)
Definition init (config : Configuration.Config) : ToolSystem :=
  {| config := config;
     available_tools :=
       ["web_search"; "calculate"; "write_file"; "read_file";
        "execute_python"] |}.

Definition nl : string := String (ascii_of_N 10) EmptyString.

(** [ToolSystem.web_search] *)
Definition web_search (query : string) : string :=
  "[SIMULATED SEARCH] Results for: " ++ query ++ nl ++
  "- Result 1: Information about " ++ query ++ nl ++
  "- Result 2: More details about " ++ query.

(** The characters [re.sub(r'[^0-9+\-*/(). ]', '', expression)] keeps. *)
Definition kept (c : ascii) : bool :=
  is_digit c || has_char c "+-*/(). ".

Fixpoint safe (expression : string) : string :=
  match expression with
  | EmptyString => EmptyString
  | String c rest => if kept c then String c (safe rest) else safe rest
  end.

(** [ToolSystem.calculate]; [None] when the evaluation of the filtered text
    is outside the model of [eval]. *)
Definition calculate (expression : string) : option Reply :=
  let safe_expression := safe expression in
  match py_eval safe_expression with
  | Some (Ok result) =>
      Some (Said ("Calculation: " ++ expression ++ " = " ++ pretty result))
  | Some (Raise e) => Some (Failed "Calculation error: " e)
  | None => None
  end.

(** [ToolSystem.write_file]; [None] when the write is outside the model. *)
Definition write_file (fs : FS) (filename content : string)
  : option (FS * Reply) :=
  match open_write fs filename content with
  | Some (Ok fs') => Some (fs', Said ("Successfully wrote to " ++ filename))
  | Some (Raise e) => Some (fs, Failed "File write error: " e)
  | None => None
  end.

(** [ToolSystem.read_file] *)
Definition read_file (fs : FS) (filename : string) : Reply :=
  match open_read fs filename with
  | Ok content =>
      Said ("File content from " ++ filename ++ ":" ++ nl ++ content)
  | Raise e => Failed "File read error: " e
  end.

Definition dangerous : list string :=
  ["import os"; "import sys"; "__import__"; "eval("; "exec("].

(** [ToolSystem.execute_python]: the check before [exec]; what [exec] does
    with code that passes the check is outside the model. *)
Definition execute_python (code : string) : option Reply :=
  if existsb (fun d => contains d code) dangerous
  then Some (Said "Error: Potentially unsafe code detected")
  else None.

(** [ToolSystem.use_tool]: the tool registered under the name is called
    with the arguments; a call with the wrong number of arguments raises
    [TypeError], which [use_tool] catches. *)
Definition use_tool (self : ToolSystem) (fs : FS) (tool_name : string)
    (args : list string) : option (FS * Reply) :=
  if negb (existsb (String.eqb tool_name) (available_tools self)) then
    Some (fs, Said ("Tool " ++ tool_name ++ " not available"))
  else if String.eqb tool_name "web_search" then
    match args with
    | [query] => Some (fs, Said (web_search query))
    | _ => Some (fs, Failed "Tool error: " TypeError)
    end
  else if String.eqb tool_name "calculate" then
    match args with
    | [expression] => pair fs <$> calculate expression
    | _ => Some (fs, Failed "Tool error: " TypeError)
    end
  else if String.eqb tool_name "write_file" then
    match args with
    | [filename; content] => write_file fs filename content
    | _ => Some (fs, Failed "Tool error: " TypeError)
    end
  else if String.eqb tool_name "read_file" then
    match args with
    | [filename] => Some (fs, read_file fs filename)
    | _ => Some (fs, Failed "Tool error: " TypeError)
    end
  else if String.eqb tool_name "execute_python" then
    match args with
    | [code] => pair fs <$> execute_python code
    | _ => Some (fs, Failed "Tool error: " TypeError)
    end
  else None.

End Tools.

(** ** ThinkerGOAT: the command dispatcher *)

Module Agent.
Import PyStr PyParse.

(** The components of [ThinkerGOAT] that the modelled calls read or
    write. *)
Record ThinkerGOAT : Type := {
  config : Configuration.Config;
  memory : Memory.VectorMemory;
  tools : Tools.ToolSystem;
  goals : Goals.GoalSystem;
  feeling_engine : Mood.FeelingEngine;
  learning_episodes : Z
}.

(** [ThinkerGOAT.__init__], with [config] the configuration after
    [load_from_file]. *)
Definition init (config : Configuration.Config) : ThinkerGOAT :=
  {| config := config;
     memory := Memory.init;
     tools := Tools.init config;
     goals := Goals.init;
     feeling_engine := Mood.init;
     learning_episodes := 0 |}.

(** The call a [return] statement of [process_command] makes. *)
Inductive Call : Type :=
| use_tool (tool_name : string) (args : list string)
| add_goal (goal_desc : string)
| update_progress (goal_id : Z) (progress : float)
| learn_code_writing
| learn_logic_puzzles
| get_status
| show_goals
| show_memory_stats
| show_help
| have_conversation (message : string).

(** [ThinkerGOAT.process_command], up to the call it returns:
    [Ok (Some call)] for [return call], [Ok None] when the branch taken
    ends without a [return] (the method then returns [None]), [Raise e]
    when parsing the arguments raises. *)
Definition process_command (command : string) : Result (option Call) :=
  let command := strip (lower command) in
  if startswith command "search " then
    let query := slice_from 7 command in
    Ok (Some (use_tool "web_search" [query]))
  else if startswith command "calculate " then
    let expr := slice_from 10 command in
    Ok (Some (use_tool "calculate" [expr]))
  else if startswith command "write_file " then
    match split_space_1 (slice_from 10 command) with
    | [part0; part1] => Ok (Some (use_tool "write_file" [part0; part1]))
    | _ => Ok None
    end
  else if startswith command "read_file " then
    let filename := slice_from 9 command in
    Ok (Some (use_tool "read_file" [filename]))
  else if startswith command "run " then
    let code := slice_from 4 command in
    Ok (Some (use_tool "execute_python" [code]))
  else if startswith command "add_goal " then
    let goal_desc := slice_from 9 command in
    Ok (Some (add_goal goal_desc))
  else if startswith command "progress " then
    match split (slice_from 9 command) with
    | [part0; part1] =>
        goal_id ← py_int part0;
        progress ← py_float part1;
        Ok (Some (update_progress goal_id progress))
    | _ => Ok None
    end
  else if String.eqb command "learn code" then Ok (Some learn_code_writing)
  else if String.eqb command "learn logic" then Ok (Some learn_logic_puzzles)
  else if String.eqb command "status" then Ok (Some get_status)
  else if String.eqb command "goals" then Ok (Some show_goals)
  else if String.eqb command "memory" then Ok (Some show_memory_stats)
  else if String.eqb command "help" then Ok (Some show_help)
  else Ok (Some (have_conversation command)).

(** The calls on the tools and the goals carried out; the other calls
    (learning, status and help texts, conversation) are outside the model. *)
Definition perform (self : ThinkerGOAT) (fs : Tools.FS) (call : Call)
    (now : string) : option (ThinkerGOAT * Tools.FS * Tools.Reply) :=
  let with_goals g :=
    {| config := config self; memory := memory self; tools := tools self;
       goals := g; feeling_engine := feeling_engine self;
       learning_episodes := learning_episodes self |} in
  match call with
  | use_tool tool_name args =>
      (fun r => (self, fst r, snd r)) <$>
        Tools.use_tool (tools self) fs tool_name args
  | add_goal goal_desc =>
      let (g, text) := Goals.add_goal (goals self) goal_desc 1 now in
      Some (with_goals g, fs, Tools.Said text)
  | update_progress goal_id progress =>
      let (g, text) :=
        Goals.update_progress (goals self) goal_id progress now in
      Some (with_goals g, fs, Tools.Said text)
  | _ => None
  end.

(** Runs commands in turn, each at its clock reading; [None] as soon as a
    command raises, returns nothing, or makes a call outside the model. *)
Fixpoint run (self : ThinkerGOAT) (fs : Tools.FS)
    (commands : list (string * string))
  : option (ThinkerGOAT * Tools.FS * list Tools.Reply) :=
  match commands with
  | [] => Some (self, fs, [])
  | (command, now) :: commands' =>
      match process_command command with
      | Ok (Some call) =>
          match perform self fs call now with
          | Some (self', fs', reply) =>
              match run self' fs' commands' with
              | Some (self'', fs'', replies) =>
                  Some (self'', fs'', reply :: replies)
              | None => None
              end
          | None => None
          end
      | _ => None
      end
  end.

End Agent.

(** ** The notions the properties are stated with *)

Module GoalNotions.
Import Goals.

(** What every goal of a tracker satisfies: an active goal has an id within
    the limit, no completion stamp and a progress within [[0, 1)]; a
    completed goal has an id within the limit, a stamp and a progress within
    [[0, 1]]. *)
Definition active_ok (limit : Z) (goal : Goal) : Prop :=
  1 <= id goal <= limit /\ completed goal = None /\
  (0 <=? progress goal)%float = true /\ (progress goal <? 1)%float = true.

Definition completed_ok (limit : Z) (goal : Goal) : Prop :=
  1 <= id goal <= limit /\ is_Some (completed goal) /\
  (0 <=? progress goal)%float = true /\ (progress goal <=? 1)%float = true.

Definition well_formed (self : GoalSystem) : Prop :=
  active_count self <= max_goals self /\
  Forall (active_ok (max_goals self)) (active_goals self) /\
  Forall (completed_ok (max_goals self)) (completed_goals self).

(** What identifies a goal across its life: the keys [add_goal] sets and
    nothing changes afterwards. *)
Definition identity (goal : Goal) : Z * string * Z * string :=
  (id goal, description goal, priority goal, created goal).

(** The identities of all goals of a tracker, active ones first. *)
Definition identities (self : GoalSystem) : list (Z * string * Z * string) :=
  map identity (active_goals self ++ completed_goals self).

(** The goal [add_goal] creates. *)
Definition new_goal (goal_id : Z) (description now : string) : Goal :=
  {| id := goal_id; description := description; priority := 1;
     created := now; progress := 0%float; completed := None |}.

End GoalNotions.

Module DispatchNotions.
Import PyStr Agent.

(** The command as [process_command] reads it. *)
Definition normalised (command : string) : string := strip (lower command).

(** The strings a call carries. *)
Definition strings_of (call : Call) : list string :=
  match call with
  | use_tool tool_name args => tool_name :: args
  | add_goal goal_desc => [goal_desc]
  | have_conversation message => [message]
  | _ => []
  end.

(** A text without upper-case letters. *)
Definition lowercase (s : string) : Prop := lower s = s.

(** A text in ASCII. *)
Definition ascii_text (s : string) : Prop :=
  Forall (fun c => (code c < 128)%N) (list_ascii_of_string s).

End DispatchNotions.

(** * The properties *)

(** ** The order of the floats *)

Module FloatFacts.
Import PyFloat.

Lemma ltb_fcmp x y : (x <? y)%float = true <-> fcmp x y = Some Lt.
Proof.
  rewrite FloatAxioms.ltb_spec. unfold SFltb, fcmp.
  destruct (SFcompare _ _) as [[]|]; split; congruence.
Qed.

Lemma eqb_fcmp x y : (x =? y)%float = true <-> fcmp x y = Some Eq.
Proof.
  rewrite FloatAxioms.eqb_spec. unfold SFeqb, fcmp.
  destruct (SFcompare _ _) as [[]|]; split; congruence.
Qed.

Lemma leb_fcmp x y :
  (x <=? y)%float = true <-> fcmp x y = Some Lt \/ fcmp x y = Some Eq.
Proof.
  rewrite FloatAxioms.leb_spec. unfold SFleb, fcmp.
  destruct (SFcompare _ _) as [[]|]; split; intros; try tauto; try congruence;
    destruct H; congruence.
Qed.

Lemma SFcompare_opp a b :
  SFcompare b a = option_map CompOpp (SFcompare a b).
Proof.
  destruct a as [sa|sa| |sa ma ea], b as [sb|sb| |sb mb eb]; simpl;
    try reflexivity;
    try (destruct sa; reflexivity); try (destruct sb; reflexivity);
    try (destruct sa, sb; reflexivity).
  destruct sa, sb; simpl; try reflexivity;
    rewrite (Z.compare_antisym ea eb);
    destruct (ea ?= eb)%Z eqn:E; simpl; try reflexivity;
    change (Pos.compare_cont Eq mb ma)
      with (Pos.compare_cont (CompOpp Eq) mb ma);
    rewrite <- Pos.compare_cont_antisym;
    destruct (Pos.compare_cont Eq ma mb); reflexivity.
Qed.

Lemma fcmp_opp x y : fcmp y x = option_map CompOpp (fcmp x y).
Proof. apply SFcompare_opp. Qed.

Lemma SFcompare_None a b :
  SFcompare a b = None -> a = S754_nan \/ b = S754_nan.
Proof.
  destruct a, b; simpl; intros H; try discriminate; auto.
Qed.

Lemma Prim2SF_nan x : Prim2SF x = S754_nan <-> is_nan x = true.
Proof.
  split.
  - intros H. unfold is_nan. rewrite FloatAxioms.eqb_spec, H. reflexivity.
  - intros H. unfold is_nan in H. rewrite FloatAxioms.eqb_spec in H.
    unfold SFeqb in H.
    destruct (SFcompare _ _) as [[]|] eqn:E; try discriminate.
    + destruct (Prim2SF x) as [s|s| |s m e]; simpl in E; try reflexivity.
      * discriminate.
      * destruct s; discriminate.
      * destruct s; rewrite Z.compare_refl in E;
          change (Pos.compare_cont Eq m m) with (Pos.compare m m) in E;
          rewrite Pos.compare_refl in E; discriminate.
    + destruct (Prim2SF x) as [s|s| |s m e]; simpl in E; try reflexivity.
      * discriminate.
      * destruct s; discriminate.
      * destruct s; rewrite Z.compare_refl in E;
          change (Pos.compare_cont Eq m m) with (Pos.compare m m) in E;
          rewrite Pos.compare_refl in E; discriminate.
    + destruct (SFcompare_None _ _ E); assumption.
Qed.

Lemma fcmp_total x y :
  is_nan x = false -> is_nan y = false -> exists c, fcmp x y = Some c.
Proof.
  intros Hx Hy. unfold fcmp.
  destruct (SFcompare _ _) as [c|] eqn:E; [eauto|].
  destruct (SFcompare_None _ _ E) as [H|H]; apply Prim2SF_nan in H; congruence.
Qed.

Lemma fcmp_not_nan x y c :
  fcmp x y = Some c -> is_nan x = false /\ is_nan y = false.
Proof.
  unfold fcmp. intros H.
  split; apply not_true_is_false; intros N; apply Prim2SF_nan in N;
    rewrite N in H; simpl in H; try discriminate.
  destruct (Prim2SF x); discriminate.
Qed.

Ltac cmp_cases :=
  repeat match goal with
  | |- context [(?a ?= ?b)%Z] => destruct (Z.compare_spec a b); subst
  | |- context [Pos.compare_cont Eq ?a ?b] =>
      change (Pos.compare_cont Eq a b) with (Pos.compare a b);
      destruct (Pos.compare_spec a b); subst
  end.

Lemma SFcompare_trans a b c c1 c2 :
  SFcompare a b = Some c1 -> SFcompare b c = Some c2 ->
  c1 <> Gt -> c2 <> Gt ->
  SFcompare a c = Some (cmp_then c1 c2).
Proof.
  destruct a as [sa|sa| |sa ma ea], b as [sb|sb| |sb mb eb],
    c as [sc|sc| |sc mc ec]; simpl; try discriminate;
    intros H1 H2 N1 N2; injection H1 as <-; injection H2 as <-;
    revert N1 N2;
    repeat match goal with s : bool |- _ => destruct s end;
    simpl; try congruence.
  all: cmp_cases; simpl; intros; try congruence; try lia.
Qed.

Lemma fcmp_trans x y z c1 c2 :
  fcmp x y = Some c1 -> fcmp y z = Some c2 -> c1 <> Gt -> c2 <> Gt ->
  fcmp x z = Some (cmp_then c1 c2).
Proof. apply SFcompare_trans. Qed.

Lemma fcmp_refl x : is_nan x = false -> fcmp x x = Some Eq.
Proof.
  intros H. unfold is_nan in H. apply negb_false_iff in H.
  now apply eqb_fcmp.
Qed.

(** The three comparisons as functions of [fcmp]. *)
Lemma ltb_cmp x y :
  (x <? y)%float = match fcmp x y with Some Lt => true | _ => false end.
Proof. rewrite FloatAxioms.ltb_spec. reflexivity. Qed.

Lemma leb_cmp x y :
  (x <=? y)%float =
  match fcmp x y with Some Lt | Some Eq => true | _ => false end.
Proof. rewrite FloatAxioms.leb_spec. reflexivity. Qed.

Lemma eqb_cmp x y :
  (x =? y)%float = match fcmp x y with Some Eq => true | _ => false end.
Proof. rewrite FloatAxioms.eqb_spec. reflexivity. Qed.

Lemma ltb_leb x y : (x <? y)%float = true -> (x <=? y)%float = true.
Proof.
  rewrite ltb_cmp, leb_cmp. destruct (fcmp x y) as [[]|]; congruence.
Qed.

Lemma leb_refl x : is_nan x = false -> (x <=? x)%float = true.
Proof. intros H. rewrite leb_cmp, fcmp_refl by assumption. reflexivity. Qed.

(** Python's [max(lo, min(hi, x))] lies within [[lo, hi]] for every [x],
    NaN and the infinities included. *)
Lemma py_max_min_bounds lo hi x :
  (lo <? hi)%float = true ->
  (lo <=? py_max lo (py_min hi x))%float = true /\
  (py_max lo (py_min hi x) <=? hi)%float = true.
Proof.
  intros Hlh.
  assert (Hn : is_nan lo = false /\ is_nan hi = false).
  { apply ltb_fcmp in Hlh. eapply fcmp_not_nan; eassumption. }
  destruct Hn as [Hlo Hhi].
  unfold py_max, py_min.
  destruct (x <? hi)%float eqn:Hx.
  - destruct (lo <? x)%float eqn:Hl.
    + split; now apply ltb_leb.
    + split; [now apply leb_refl | now apply ltb_leb].
  - rewrite Hlh. split; [now apply ltb_leb | now apply leb_refl].
Qed.

(** On a number, [max(lo, min(hi, x))] is [clamp lo hi x]. *)
Lemma py_max_min_clamp lo hi x :
  (lo <? hi)%float = true -> is_nan x = false ->
  py_max lo (py_min hi x) = clamp lo hi x.
Proof.
  intros Hlh Hx.
  assert (Hn : is_nan lo = false /\ is_nan hi = false).
  { apply ltb_fcmp in Hlh. eapply fcmp_not_nan; eassumption. }
  destruct Hn as [Hlo Hhi].
  apply ltb_fcmp in Hlh.
  destruct (fcmp_total x lo Hx Hlo) as [c1 H1].
  destruct (fcmp_total x hi Hx Hhi) as [c2 H2].
  assert (Hc : c1 <> Gt -> c2 = Lt).
  { intros N.
    pose proof (fcmp_trans _ _ _ _ _ H1 Hlh N ltac:(discriminate)) as T.
    rewrite H2 in T. injection T as ->. destruct c1; simpl; congruence. }
  unfold py_max, py_min, clamp.
  rewrite (ltb_cmp x hi), (leb_cmp x lo), (leb_cmp hi x), H1, H2.
  rewrite (fcmp_opp x hi), H2. simpl.
  destruct c1, c2; simpl;
    try (specialize (Hc ltac:(discriminate)); discriminate);
    rewrite ?(ltb_cmp lo x), ?(ltb_cmp lo hi), ?(fcmp_opp x lo), ?H1, ?Hlh;
    simpl; reflexivity.
Qed.

(** *** Sums and products of numbers

    A rounded result is never NaN: NaN comes out of a sum or product only
    from a NaN operand, from [inf - inf] or from [0 * inf]. *)

Section Rounding.
Variables prec emax : Z.

Lemma shr_1_nonneg mrs : (0 <= shr_m mrs)%Z -> (0 <= shr_m (shr_1 mrs))%Z.
Proof.
  destruct mrs as [m r s]. simpl. destruct m as [|[p|p|]|[p|p|]]; simpl; lia.
Qed.

Lemma iter_pos_shr_1_nonneg n mrs :
  (0 <= shr_m mrs)%Z -> (0 <= shr_m (SpecFloat.iter_pos shr_1 n mrs))%Z.
Proof.
  revert mrs. induction n as [n IH|n IH|]; simpl; intros mrs H.
  - apply IH, IH, shr_1_nonneg, H.
  - apply IH, IH, H.
  - apply shr_1_nonneg, H.
Qed.

Lemma shr_fexp_nonneg m e l :
  (0 <= m)%Z -> (0 <= shr_m (fst (shr_fexp prec emax m e l)))%Z.
Proof.
  intros H. unfold shr_fexp, shr.
  assert (H0 : (0 <= shr_m (shr_record_of_loc m l))%Z).
  { destruct l as [|[]]; simpl; exact H. }
  destruct (_ - e)%Z; simpl; try exact H0.
  apply iter_pos_shr_1_nonneg, H0.
Qed.

Lemma round_nearest_even_nonneg m l :
  (0 <= m)%Z -> (0 <= round_nearest_even m l)%Z.
Proof.
  intros H. destruct l as [|[]]; simpl; try lia.
  destruct (Z.even m); lia.
Qed.

Lemma binary_round_aux_not_nan sx mx ex lx :
  (0 <= mx)%Z -> binary_round_aux prec emax sx mx ex lx <> S754_nan.
Proof.
  intros H. unfold binary_round_aux.
  pose proof (shr_fexp_nonneg mx ex lx H) as H1.
  destruct (shr_fexp prec emax mx ex lx) as [mrs' e']. simpl in H1.
  pose proof (round_nearest_even_nonneg _ (loc_of_shr_record mrs') H1) as Hr.
  pose proof (shr_fexp_nonneg _ e' loc_Exact Hr) as H2.
  destruct (shr_fexp prec emax _ e' loc_Exact) as [mrs'' e'']. simpl in H2.
  destruct (shr_m mrs''); try lia; try discriminate.
  destruct (_ <=? _)%Z; discriminate.
Qed.

Lemma binary_normalize_not_nan m e sz :
  binary_normalize prec emax m e sz <> S754_nan.
Proof.
  destruct m; simpl; try discriminate; unfold binary_round;
  destruct (shl_align _ _ _); apply binary_round_aux_not_nan; lia.
Qed.

Lemma SFmul_nan x y :
  SFmul prec emax x y = S754_nan ->
  x = S754_nan \/ y = S754_nan \/
  (exists s, x = S754_infinity s) \/ (exists s, y = S754_infinity s).
Proof.
  destruct x, y; simpl; intros H; try discriminate; eauto 10.
  exfalso. revert H. apply binary_round_aux_not_nan. lia.
Qed.

Lemma SFadd_nan x y :
  SFadd prec emax x y = S754_nan ->
  x = S754_nan \/ y = S754_nan \/ (exists s, x = S754_infinity s).
Proof.
  destruct x as [sx|sx| |sx mx ex], y as [sy|sy| |sy my ey]; simpl; intros H;
    try discriminate; eauto 10;
    try (destruct sx, sy; discriminate).
  exfalso. revert H. apply binary_normalize_not_nan.
Qed.

End Rounding.

Lemma is_nan_false x : is_nan x = false <-> Prim2SF x <> S754_nan.
Proof.
  rewrite Prim2SF_nan. destruct (is_nan x); split; congruence.
Qed.

Lemma mul_not_nan k r :
  finite_nonzero k -> is_nan r = false -> is_nan (k * r) = false.
Proof.
  intros (s & m & e & Hk) Hr. apply is_nan_false in Hr. apply is_nan_false.
  rewrite mul_spec, Hk. unfold SF64mul.
  destruct (Prim2SF r) as [sr|sr| |sr mr er]; simpl; try discriminate;
    try congruence.
  apply binary_round_aux_not_nan. lia.
Qed.

Lemma add_not_nan x y :
  finite x -> is_nan y = false -> is_nan (x + y) = false.
Proof.
  intros [Hx Hi] Hy. apply is_nan_false in Hx, Hy. apply is_nan_false.
  rewrite add_spec. intros H. apply SFadd_nan in H.
  destruct H as [H|[H|[s H]]]; [congruence | congruence | exact (Hi s H)].
Qed.

(** A float between two finite floats is finite. *)
Lemma between_finite lo hi x :
  finite lo -> finite hi ->
  (lo <=? x)%float = true -> (x <=? hi)%float = true -> finite x.
Proof.
  intros [Nl Il] [Nh Ih] H1 H2.
  rewrite leb_cmp in H1, H2. unfold fcmp in H1, H2.
  apply is_nan_false in Nl, Nh.
  split.
  - apply is_nan_false. intros E. rewrite E in H2. simpl in H2. discriminate.
  - intros s E. rewrite E in H1, H2.
    destruct s.
    + destruct (Prim2SF lo) as [?|sl| |? ? ?]; simpl in H1;
        try discriminate; try congruence; exact (Il sl eq_refl).
    + destruct (Prim2SF hi) as [?|sh| |? ? ?]; simpl in H2;
        try discriminate; try congruence; exact (Ih sh eq_refl).
Qed.

Lemma finite_const (c : float) :
  is_nan c = false ->
  match Prim2SF c with S754_infinity _ => False | _ => True end ->
  finite c.
Proof.
  intros Hn Hi. split; [exact Hn|].
  intros s E. rewrite E in Hi. exact Hi.
Qed.

End FloatFacts.

(** ** The mood stays in range *)

Module MoodFacts.
Import PyFloat FloatFacts Mood.
Local Open Scope float_scope.

Lemma init_in_range : in_range init.
Proof. repeat split. Defined.

(** Whatever the state and the reward, [react] leaves the state in range. *)
Lemma react_in_range (self : FeelingEngine) (reward : float) :
  in_range (react self reward).
Proof.
  unfold in_range, react; simpl.
  destruct (py_max_min_bounds 0.0 100.0 (energy self + 2.0 * reward)
              eq_refl) as [E1 E2].
  destruct (py_max_min_bounds 0.0 1.0 (curiosity self + 0.1 * reward)
              eq_refl) as [C1 C2].
  auto.
Qed.

Lemma react_all_in_range (self : FeelingEngine) (rewards : list float) :
  in_range self -> in_range (react_all self rewards).
Proof.
  unfold react_all. revert self.
  induction rewards as [|r rewards IH]; simpl; intros self H.
  - exact H.
  - apply IH, react_in_range.
Qed.

(** In range, the sums [react] clamps are numbers when the reward is. *)
Lemma react_sums_not_nan (self : FeelingEngine) (reward : float) :
  in_range self -> is_nan reward = false ->
  is_nan (energy self + 2.0 * reward) = false /\
  is_nan (curiosity self + 0.1 * reward) = false.
Proof.
  intros (E1 & E2 & C1 & C2) Hr.
  assert (F0 : finite 0.0) by (apply finite_const; vm_compute; auto).
  assert (F1 : finite 1.0) by (apply finite_const; vm_compute; auto).
  assert (F100 : finite 100.0) by (apply finite_const; vm_compute; auto).
  split; apply add_not_nan;
    try (eapply between_finite; [| | eassumption | eassumption]; assumption);
    apply mul_not_nan; try assumption;
    do 3 eexists; vm_compute; reflexivity.
Qed.

(** C8. Along every finite sequence of [react] calls from a state in range
    (the initial state is one), whatever the sign or magnitude of the
    rewards, energy stays within [[0, 100]] and curiosity within [[0, 1]];
    and each call with a reward that is a number sets energy to
    [clamp(energy + 2*reward, 0, 100)] and curiosity to
    [clamp(curiosity + 0.1*reward, 0, 1)]. *)
Theorem react_clamps_energy_and_curiosity
    (self : FeelingEngine) (rewards : list float) :
  in_range self ->
  in_range (react_all self rewards) /\
  forall reward : float,
    in_range (react (react_all self rewards) reward) /\
    (is_nan reward = false ->
     energy (react (react_all self rewards) reward) =
       clamp 0.0 100.0 (energy (react_all self rewards) + 2.0 * reward) /\
     curiosity (react (react_all self rewards) reward) =
       clamp 0.0 1.0 (curiosity (react_all self rewards) + 0.1 * reward)).
Proof.
  intros H0.
  pose proof (react_all_in_range self rewards H0) as H.
  split; [exact H|].
  intros reward. split; [apply react_in_range|].
  intros Hr.
  destruct (react_sums_not_nan _ reward H Hr) as [Se Sc].
  unfold react; simpl.
  split; apply py_max_min_clamp; auto.
Qed.

Lemma react_clamps_energy_and_curiosity_witness :
  in_range (react_all init [1.0; -80.0; 1e300]) /\
  energy (react (react_all init [1.0; -80.0; 1e300]) (-0.5)) = 99.0 /\
  curiosity (react (react_all init [1.0; -80.0; 1e300]) (-0.5)) = 0.95.
Proof.
  destruct (react_clamps_energy_and_curiosity init [1.0; -80.0; 1e300]
              init_in_range) as [A B].
  split; [exact A|].
  destruct (B (-0.5)) as [_ C]. destruct (C eq_refl) as [E Cu].
  split; [rewrite E | rewrite Cu]; reflexivity.
Defined.

(** A reward that is not a number saturates both components. *)
Example react_nan :
  energy (react init nan) = 100.0 /\ curiosity (react init nan) = 1.0.
Proof. split; reflexivity. Qed.

End MoodFacts.

(** ** The goal tracker *)

Module GoalFacts.
Import PyFloat FloatFacts Goals.

Lemma active_count_app (self : GoalSystem) (goal : Goal) :
  Z.of_nat (length (active_goals self ++ [goal])%list) = active_count self + 1.
Proof. unfold active_count. rewrite length_app. simpl. lia. Qed.

(** C2. [add_goal] succeeds and raises the number of active goals by exactly
    one whenever that number is below the maximum, the new goal going last
    with progress 0; when the number equals the maximum it answers with the
    limit message and leaves the tracker as it was. *)
Theorem add_goal_below_and_at_limit
    (self : GoalSystem) (description : string) (priority : Z) (now : string) :
  (active_count self < max_goals self ->
   snd (add_goal self description priority now) =
     "Goal added: " ++ description /\
   active_count (fst (add_goal self description priority now)) =
     active_count self + 1 /\
   exists goal,
     active_goals (fst (add_goal self description priority now)) =
       (active_goals self ++ [goal])%list /\
     progress goal = 0.0%float /\ Goals.description goal = description) /\
  (active_count self = max_goals self ->
   add_goal self description priority now = (self, limit_reached)).
Proof.
  unfold add_goal. split; intros H.
  - destruct (Z.leb_spec (max_goals self) (active_count self)); [lia|].
    simpl. split; [reflexivity|]. split; [apply active_count_app|].
    eexists. split; [reflexivity|]. split; reflexivity.
  - destruct (Z.leb_spec (max_goals self) (active_count self)); [|lia].
    reflexivity.
Qed.

Lemma add_goal_below_and_at_limit_witness :
  (snd (add_goal init "write tests" 1 "t0") = "Goal added: write tests" /\
   active_count (fst (add_goal init "write tests" 1 "t0")) = 1) /\
  add_goal five_goals "f" 1 "t6" = (five_goals, limit_reached).
Proof.
  split.
  - destruct (add_goal_below_and_at_limit init "write tests" 1 "t0")
      as [Below _].
    destruct (Below ltac:(reflexivity)) as (Msg & Count & _).
    split; [exact Msg | exact Count].
  - destruct (add_goal_below_and_at_limit five_goals "f" 1 "t6") as [_ At].
    apply At. reflexivity.
Defined.

(** C6, at its failing input. After goal 1 is completed, the next goal
    added gets [len(active_goals) + 1 = 2], the id that goal "b" received
    earlier and still carries: two active goals share id 2. *)
Theorem add_goal_reuses_id :
  map (fun goal => (id goal, description goal)) (active_goals reused_id) =
    [(2, "b"); (2, "c")] /\
  map (fun goal => (id goal, description goal)) (completed_goals reused_id) =
    [(1, "a")].
Proof. split; reflexivity. Qed.

(** C1, at its failing input. With the two active goals of id 2,
    [update_progress(2, 1.5)] stores the clamped progress 1.0 in "b" and
    moves it to the completed list; a second completion attempt for id 2
    then does not answer "Goal not found": it completes "c". *)
Theorem second_completion_succeeds :
  let after := update_progress reused_id 2 1.5%float "t5" in
  snd after = "Progress updated for goal 2" /\
  map description (active_goals (fst after)) = ["c"] /\
  map (fun goal => (description goal, progress goal, completed goal))
      (completed_goals (fst after)) =
    [("a", 0.0%float, Some "t3"); ("b", 1.0%float, Some "t5")] /\
  snd (complete_goal (fst after) 2 "t6") = "Goal completed: c" /\
  snd (update_progress (fst after) 2 1.0%float "t6") =
    "Progress updated for goal 2".
Proof. repeat split; reflexivity. Qed.

(** *** What holds of [update_progress] whatever the ids

    The clamped value is stored in the first active goal with the id, and
    from 1.0 on that goal is moved; when no other active goal carries the
    id, a second attempt finds nothing. *)

Lemma pop_first_absent goal_id goals :
  absent goal_id goals -> pop_first goal_id goals = None.
Proof.
  induction 1 as [|goal rest Hne _ IH]; simpl; [reflexivity|].
  destruct (Z.eqb_spec (id goal) goal_id); [contradiction|].
  rewrite IH. reflexivity.
Qed.

Lemma pop_first_found goal_id before goal after :
  absent goal_id before -> id goal = goal_id ->
  pop_first goal_id (before ++ goal :: after) =
    Some (goal, (before ++ after)%list).
Proof.
  intros Hb Hid. induction Hb as [|g rest Hne _ IH]; simpl.
  - destruct (Z.eqb_spec (id goal) goal_id); [reflexivity | contradiction].
  - destruct (Z.eqb_spec (id g) goal_id); [contradiction|].
    rewrite IH. reflexivity.
Qed.

Lemma assign_progress_absent goal_id value goals :
  absent goal_id goals -> assign_progress goal_id value goals = None.
Proof.
  induction 1 as [|goal rest Hne _ IH]; simpl; [reflexivity|].
  destruct (Z.eqb_spec (id goal) goal_id); [contradiction|].
  rewrite IH. reflexivity.
Qed.

Lemma assign_progress_found goal_id value before goal after :
  absent goal_id before -> id goal = goal_id ->
  assign_progress goal_id value (before ++ goal :: after) =
    Some (before ++ with_progress goal value :: after)%list.
Proof.
  intros Hb Hid. induction Hb as [|g rest Hne _ IH]; simpl.
  - destruct (Z.eqb_spec (id goal) goal_id); [reflexivity | contradiction].
  - destruct (Z.eqb_spec (id g) goal_id); [contradiction|].
    rewrite IH. reflexivity.
Qed.

(** The first active goal with the id splits the list around it. *)
Lemma first_with_id goal_id goals :
  absent goal_id goals \/
  exists before goal after,
    goals = (before ++ goal :: after)%list /\
    absent goal_id before /\ id goal = goal_id.
Proof.
  induction goals as [|g rest IH]; [left; constructor|].
  destruct (Z.eq_dec (id g) goal_id) as [E|N].
  - right. exists [], g, rest. repeat split; [constructor | exact E].
  - destruct IH as [A|(before & goal & after & -> & A & E)].
    + left. constructor; assumption.
    + right. exists (g :: before), goal, after.
      repeat split; [constructor; assumption | exact E].
Qed.

(** The progress [update_progress] stores lies within [[0, 1]], and is
    [clamp 0 1 progress] when [progress] is a number. *)
Lemma stored_progress (progress : float) :
  (0 <=? py_max 0 (py_min 1 progress))%float = true /\
  (py_max 0 (py_min 1 progress) <=? 1)%float = true /\
  (is_nan progress = false ->
   py_max 0 (py_min 1 progress) = clamp 0 1 progress).
Proof.
  destruct (py_max_min_bounds 0 1 progress eq_refl) as [L U].
  repeat split; try assumption.
  apply py_max_min_clamp. reflexivity.
Qed.

(** [update_progress] on an id no active goal carries. *)
Lemma update_progress_absent self goal_id progress now :
  absent goal_id (active_goals self) ->
  update_progress self goal_id progress now = (self, goal_not_found).
Proof.
  intros H. unfold update_progress.
  rewrite (assign_progress_absent _ _ _ H). reflexivity.
Qed.

Lemma complete_goal_absent self goal_id now :
  absent goal_id (active_goals self) ->
  complete_goal self goal_id now = (self, goal_not_found).
Proof.
  intros H. unfold complete_goal.
  rewrite (pop_first_absent _ _ H). reflexivity.
Qed.

(** [update_progress] on the first active goal with the id: the clamped
    value is stored in it; below 1.0 the goal stays in place, from 1.0 on it
    leaves the active list and goes last in the completed list. *)
Lemma update_progress_found self goal_id progress now before goal after :
  active_goals self = (before ++ goal :: after)%list ->
  absent goal_id before -> id goal = goal_id ->
  let stored := py_max 0 (py_min 1 progress) in
  update_progress self goal_id progress now =
    (if geb stored 1 then
       {| active_goals := before ++ after;
          completed_goals :=
            completed_goals self ++
              [completed_at (with_progress goal stored) now];
          max_goals := max_goals self |}
     else
       {| active_goals := before ++ with_progress goal stored :: after;
          completed_goals := completed_goals self;
          max_goals := max_goals self |},
     "Progress updated for goal " ++ pretty goal_id).
Proof.
  intros Ha Hb Hid stored. unfold update_progress. fold stored.
  rewrite Ha, (assign_progress_found _ stored _ _ _ Hb Hid).
  destruct (geb stored 1); [|reflexivity].
  unfold complete_goal. simpl.
  rewrite (pop_first_found goal_id before (with_progress goal stored) after Hb)
    by exact Hid.
  reflexivity.
Qed.

(** With the id carried by one active goal only, a goal completed through
    [update_progress] is gone for a second attempt. *)
Lemma second_attempt_not_found
    self goal_id progress now now' before goal after :
  active_goals self = (before ++ goal :: after)%list ->
  absent goal_id before -> absent goal_id after -> id goal = goal_id ->
  geb (py_max 0 (py_min 1 progress)) 1 = true ->
  let self' := fst (update_progress self goal_id progress now) in
  snd (complete_goal self' goal_id now') = goal_not_found /\
  (forall progress',
     snd (update_progress self' goal_id progress' now') = goal_not_found).
Proof.
  intros Ha Hb Hafter Hid Hge self'.
  assert (Habs : absent goal_id (active_goals self')).
  { unfold self'. rewrite (update_progress_found _ _ _ _ _ _ _ Ha Hb Hid), Hge.
    simpl. apply Forall_app. split; assumption. }
  split.
  - rewrite (complete_goal_absent _ _ _ Habs). reflexivity.
  - intros progress'.
    rewrite (update_progress_absent _ _ _ _ Habs). reflexivity.
Qed.

(** *** The bound on the active goals *)

Lemma pop_first_length goal_id goals goal rest :
  pop_first goal_id goals = Some (goal, rest) ->
  length goals = S (length rest).
Proof.
  revert goal rest. induction goals as [|g goals IH]; simpl; intros goal rest H.
  - discriminate.
  - destruct (id g =? goal_id)%Z.
    + injection H as <- <-. reflexivity.
    + destruct (pop_first goal_id goals) as [[found rest']|]; [|discriminate].
      injection H as <- <-. simpl. rewrite (IH _ _ eq_refl). reflexivity.
Qed.

Lemma assign_progress_length goal_id value goals goals' :
  assign_progress goal_id value goals = Some goals' ->
  length goals' = length goals.
Proof.
  revert goals'. induction goals as [|g goals IH]; simpl; intros goals' H.
  - discriminate.
  - destruct (id g =? goal_id)%Z.
    + injection H as <-. reflexivity.
    + destruct (assign_progress goal_id value goals); [|discriminate].
      injection H as <-. simpl. rewrite (IH _ eq_refl). reflexivity.
Qed.

Lemma complete_goal_bound self goal_id now :
  max_goals (fst (complete_goal self goal_id now)) = max_goals self /\
  active_count (fst (complete_goal self goal_id now)) <= active_count self.
Proof.
  unfold complete_goal, active_count.
  destruct (pop_first goal_id (active_goals self)) as [[goal rest]|] eqn:E;
    simpl.
  - apply pop_first_length in E. rewrite E. split; [reflexivity | lia].
  - split; [reflexivity | lia].
Qed.

Lemma step_bound self op now :
  max_goals (fst (step self op now)) = max_goals self /\
  (active_count self <= max_goals self ->
   active_count (fst (step self op now)) <= max_goals self).
Proof.
  destruct op as [description priority|goal_id progress|goal_id]; simpl.
  - unfold add_goal.
    destruct (Z.leb_spec (max_goals self) (active_count self)); simpl.
    + auto.
    + split; [reflexivity|]. intros _. unfold active_count at 1. simpl.
      rewrite length_app. simpl. unfold active_count in *. lia.
  - unfold update_progress.
    destruct (assign_progress _ _ _) as [goals|] eqn:E; simpl; [|auto].
    apply assign_progress_length in E.
    set (self1 := {| active_goals := goals;
                     completed_goals := completed_goals self;
                     max_goals := max_goals self |}).
    assert (H1 : active_count self1 = active_count self).
    { unfold active_count, self1. simpl. rewrite E. reflexivity. }
    destruct (geb _ _).
    + destruct (complete_goal_bound self1 goal_id now) as [M C].
      split; [exact M|]. intros. lia.
    + split; [reflexivity|]. intros. lia.
  - destruct (complete_goal_bound self goal_id now) as [M C].
    split; [exact M|]. intros. lia.
Qed.

(** Under every sequence of operations the number of active goals stays
    within the tracker's own [max_goals], which [GoalSystem()] sets to 5. *)
Lemma run_bound self ops :
  active_count self <= max_goals self ->
  max_goals (run self ops) = max_goals self /\
  active_count (run self ops) <= max_goals self.
Proof.
  revert self. induction ops as [|[op now] ops IH]; simpl; intros self H.
  - auto.
  - destruct (step_bound self op now) as [M B].
    destruct (IH (fst (step self op now))) as [M' B']; [rewrite M; auto|].
    rewrite M in M', B'. auto.
Qed.

Lemma run_init_bound ops : active_count (run init ops) <= 5.
Proof. apply (run_bound init ops). unfold active_count. simpl. lia. Qed.

End GoalFacts.

(** ** The memory search *)

Module MemoryFacts.
Import PyFloat FloatFacts Memory.

Lemma dict_eqb_refl d : dict_eqb d d = true.
Proof. unfold dict_eqb. apply bool_decide_eq_true. reflexivity. Qed.

Lemma dict_eqb_sym d1 d2 : dict_eqb d1 d2 = true -> dict_eqb d2 d1 = true.
Proof. unfold dict_eqb. rewrite !bool_decide_eq_true. congruence. Qed.

Lemma dict_eqb_trans d1 d2 d3 :
  dict_eqb d1 d2 = true -> dict_eqb d2 d3 = true -> dict_eqb d1 d3 = true.
Proof. unfold dict_eqb. rewrite !bool_decide_eq_true. congruence. Qed.

Lemma tie_sym a b : tie a b -> tie b a.
Proof.
  unfold tie. rewrite !eqb_cmp, (fcmp_opp (fst a) (fst b)).
  destruct (fcmp (fst a) (fst b)) as [[]|]; simpl; congruence.
Qed.

Lemma agree_sym a b : agree a b -> agree b a.
Proof. intros H T. apply dict_eqb_sym, H, tie_sym, T. Qed.

Lemma fle_trans a b c : fle a b -> fle b c -> fle a c.
Proof.
  unfold fle. rewrite !leb_cmp. intros H1 H2.
  destruct (fcmp (fst a) (fst b)) as [c1|] eqn:E1; [|discriminate].
  destruct (fcmp (fst b) (fst c)) as [c2|] eqn:E2; [|discriminate].
  rewrite (fcmp_trans _ _ _ _ _ E1 E2) by (destruct c1, c2; congruence).
  destruct c1, c2; simpl; congruence.
Qed.

Lemma fle_antisym a b : fle a b -> fle b a -> tie a b.
Proof.
  unfold fle, tie. rewrite !leb_cmp, eqb_cmp, (fcmp_opp (fst a) (fst b)).
  destruct (fcmp (fst a) (fst b)) as [[]|]; simpl; congruence.
Qed.

Lemma tie_fle a b : tie a b -> fle a b.
Proof.
  unfold fle, tie. rewrite leb_cmp, eqb_cmp.
  destruct (fcmp (fst a) (fst b)) as [[]|]; simpl; congruence.
Qed.

(** What a comparison that returns tells about its operands. *)
Lemma tuple_lt_true x y :
  tuple_lt x y = Ok true -> (fst x <? fst y)%float = true.
Proof.
  unfold tuple_lt. destruct (negb _); [congruence|].
  destruct (negb _); congruence.
Qed.

Lemma tuple_lt_false x y :
  number x -> number y -> tuple_lt x y = Ok false -> fle y x /\ agree x y.
Proof.
  unfold tuple_lt, number, fle, agree, tie. intros Nx Ny.
  destruct (fcmp_total _ _ Nx Ny) as [c Hc].
  rewrite eqb_cmp, ltb_cmp, leb_cmp, (fcmp_opp (fst x) (fst y)), Hc.
  destruct c; simpl.
  - destruct (dict_eqb (snd x) (snd y)); simpl; [auto | discriminate].
  - discriminate.
  - intros _. split; [reflexivity | discriminate].
Qed.

Lemma tuple_lt_raise x y e :
  tuple_lt x y = Raise e ->
  e = TypeError /\ tie x y /\ dict_eqb (snd x) (snd y) = false.
Proof.
  unfold tuple_lt, tie. destruct (fst x =? fst y)%float; simpl; [|discriminate].
  destruct (dict_eqb (snd x) (snd y)); simpl; [discriminate|].
  intros [= <-]. auto.
Qed.

Lemma sorted_prefix_nil : sorted_prefix [].
Proof.
  split; [constructor|]. split; [constructor|].
  intros a b Ha. inversion Ha.
Qed.

Lemma sorted_prefix_tail p l : sorted_prefix (p :: l) -> sorted_prefix l.
Proof.
  intros (S & N & A). inversion S; subst. inversion N; subst.
  split; [assumption|]. split; [assumption|].
  intros a b Ha Hb. apply A; right; assumption.
Qed.

Lemma ltb_fle_tie x y :
  (fst x <? fst y)%float = true -> fle x y /\ ~ tie x y.
Proof.
  unfold fle, tie. rewrite ltb_cmp, leb_cmp, eqb_cmp.
  destruct (fcmp (fst x) (fst y)) as [[]|]; simpl; split; congruence.
Qed.

Lemma sort_insert_ok pivot l l' :
  sorted_prefix l -> number pivot -> sort_insert pivot l = Ok l' ->
  sorted_prefix l' /\ l' ≡ₚ pivot :: l /\
  forall a, a ∈ l -> agree pivot a.
Proof.
  revert l'. induction l as [|p rest IH]; simpl; intros l' Hl Np H.
  - injection H as <-. split; [|split; [reflexivity|]].
    + split; [repeat constructor|]. split; [repeat constructor; exact Np|].
      intros a b Ha Hb. apply list_elem_of_singleton in Ha, Hb. subst.
      intros _. apply dict_eqb_refl.
    + intros a Ha. inversion Ha.
  - pose proof Hl as (S & N & A).
    inversion S as [|? ? Srest Hp]; subst.
    inversion N as [|? ? Nphd Nrest]; subst.
    destruct (tuple_lt pivot p) as [[|]|e] eqn:Hlt; simpl in H;
      [| |discriminate].
    + (* the pivot goes before [p] *)
      injection H as <-.
      apply tuple_lt_true, ltb_fle_tie in Hlt. destruct Hlt as [Hle Hnt].
      assert (Hall : forall a, a ∈ p :: rest -> fle pivot a /\ ~ tie pivot a).
      { intros a Ha. apply elem_of_cons in Ha as [->|Ha]; [auto|].
        rewrite Forall_forall in Hp. specialize (Hp a Ha).
        split; [eapply fle_trans; eassumption|].
        intros T. apply Hnt. apply fle_antisym; [exact Hle|].
        eapply fle_trans; [exact Hp|]. apply tie_fle, tie_sym, T. }
      split; [|split; [reflexivity|]].
      * split; [|split].
        -- constructor; [exact S|]. apply Forall_forall. intros a Ha.
           apply Hall, Ha.
        -- constructor; assumption.
        -- intros a b Ha Hb.
           apply elem_of_cons in Ha as [->|Ha];
             apply elem_of_cons in Hb as [->|Hb].
           ++ intros _. apply dict_eqb_refl.
           ++ intros T. destruct (Hall b Hb) as [_ F]. contradiction.
           ++ intros T. destruct (Hall a Ha) as [_ F].
              apply tie_sym in T. contradiction.
           ++ apply A; assumption.
      * intros a Ha T. destruct (Hall a Ha) as [_ F]. contradiction.
    + (* the pivot goes after [p] *)
      destruct (sort_insert pivot rest) as [placed|e] eqn:Hins; simpl in H;
        [|discriminate].
      injection H as <-.
      apply (tuple_lt_false _ _ Np Nphd) in Hlt. destruct Hlt as [Hle Hag].
      destruct (IH placed (sorted_prefix_tail _ _ Hl) Np eq_refl)
        as ((S' & N' & A') & Perm & Hpiv).
      assert (Hin : forall a, a ∈ placed -> a = pivot \/ a ∈ rest).
      { intros a Ha. rewrite Perm in Ha. apply elem_of_cons in Ha. exact Ha. }
      assert (Hpa : forall a, a ∈ placed -> fle p a /\ agree p a).
      { intros a Ha. destruct (Hin a Ha) as [->|Hr].
        - split; [exact Hle | apply agree_sym, Hag].
        - split.
          + rewrite Forall_forall in Hp. apply Hp, Hr.
          + apply A; [left | right; exact Hr]. }
      split; [|split].
      * split; [|split].
        -- constructor; [exact S'|]. apply Forall_forall. intros a Ha.
           apply Hpa, Ha.
        -- constructor; assumption.
        -- intros a b Ha Hb.
           apply elem_of_cons in Ha as [->|Ha];
             apply elem_of_cons in Hb as [->|Hb].
           ++ intros _. apply dict_eqb_refl.
           ++ apply Hpa, Hb.
           ++ apply agree_sym, Hpa, Ha.
           ++ apply A'; assumption.
      * rewrite Perm. apply perm_swap.
      * intros a Ha.
        apply elem_of_cons in Ha as [->|Ha]; [exact Hag | apply Hpiv, Ha].
Qed.

Lemma sort_insert_raise pivot l e :
  sort_insert pivot l = Raise e -> e = TypeError.
Proof.
  induction l as [|p rest IH]; simpl; [discriminate|].
  destruct (tuple_lt pivot p) as [[|]|e'] eqn:Hlt; simpl.
  - discriminate.
  - destruct (sort_insert pivot rest); simpl; [discriminate|].
    intros [= <-]. apply IH. reflexivity.
  - intros [= <-]. apply tuple_lt_raise in Hlt. tauto.
Qed.

Lemma sort_from_raise sorted todo e :
  sort_from sorted todo = Raise e -> e = TypeError.
Proof.
  revert sorted. induction todo as [|pivot todo IH]; simpl; intros sorted.
  - discriminate.
  - destruct (sort_insert pivot sorted) as [sorted'|e'] eqn:Hins; simpl.
    + apply IH.
    + intros [= <-]. eapply sort_insert_raise, Hins.
Qed.

Lemma sort_from_ok sorted todo l :
  sorted_prefix sorted -> Forall number todo ->
  sort_from sorted todo = Ok l ->
  sorted_prefix l /\ l ≡ₚ sorted ++ todo.
Proof.
  revert sorted.
  induction todo as [|pivot todo IH]; simpl; intros sorted Hs Hn H.
  - injection H as <-. rewrite app_nil_r. auto.
  - inversion Hn as [|? ? Np Nt]; subst.
    destruct (sort_insert pivot sorted) as [sorted'|e] eqn:Hins; simpl in H;
      [|discriminate].
    destruct (sort_insert_ok _ _ _ Hs Np Hins) as (Hs' & Perm & _).
    destruct (IH _ Hs' Nt H) as [Hl Pl].
    split; [exact Hl|]. rewrite Pl, Perm. simpl.
    apply Permutation_middle.
Qed.

(** A sort that returns has met no two records of equal score and unequal
    dictionaries. *)
Lemma sort_ok_agree l sorted :
  Forall number l -> list_sort l = Ok sorted ->
  forall a b, a ∈ l -> b ∈ l -> agree a b.
Proof.
  intros Hn H a b Ha Hb.
  destruct (sort_from_ok [] l sorted sorted_prefix_nil Hn H) as [(_ & _ & A) P].
  simpl in P. apply A; rewrite P; assumption.
Qed.

Lemma elem_of_rev {A : Type} (x : A) (l : list A) : x ∈ l -> x ∈ rev l.
Proof. rewrite !list_elem_of_In. apply in_rev. Qed.

Lemma sort_reverse_tie_raises l a b :
  Forall number l -> a ∈ l -> b ∈ l ->
  tie a b -> dict_eqb (snd a) (snd b) = false ->
  sort_reverse l = Raise TypeError.
Proof.
  intros Hn Ha Hb T D. unfold sort_reverse.
  destruct (list_sort (rev l)) as [sorted|e] eqn:Hs; simpl.
  - exfalso.
    assert (Hag : agree a b).
    { eapply (sort_ok_agree (rev l)); [| exact Hs | |].
      - apply Forall_rev, Hn.
      - apply elem_of_rev, Ha.
      - apply elem_of_rev, Hb. }
    rewrite (Hag T) in D. discriminate.
  - apply sort_from_raise in Hs. subst. reflexivity.
Qed.

(** The store built by [add_memory] holds the records in order. *)
Lemma store_of_lists records :
  memories (store_of records) = map fst records /\
  importance_scores (store_of records) = map snd records.
Proof.
  unfold store_of.
  set (add := fun self r => add_memory self (fst r) (snd r)).
  assert (G : forall self,
    memories (fold_left add records self)
      = (memories self ++ map fst records)%list /\
    importance_scores (fold_left add records self)
      = (importance_scores self ++ map snd records)%list).
  { induction records as [|r records IH]; simpl; intros self.
    - rewrite !app_nil_r. auto.
    - destruct (IH (add self r)) as [M I].
      rewrite M, I. simpl. rewrite <- !app_assoc. auto. }
  apply (G init).
Qed.

Lemma score_loop_records self words done records :
  importance_scores self = (done ++ map snd records)%list ->
  score_loop self words (length done) (map fst records) =
    Ok (scored words records).
Proof.
  revert done. induction records as [|r records IH]; simpl; intros done H.
  - reflexivity.
  - rewrite H, lookup_app_r, Nat.sub_diag by lia. simpl.
    specialize (IH (done ++ [snd r])%list).
    rewrite length_app in IH. simpl in IH.
    replace (length done + 1)%nat with (S (length done)) in IH by lia.
    rewrite IH by (rewrite <- app_assoc; exact H). reflexivity.
Qed.

Lemma score_loop_store words records :
  score_loop (store_of records) words 0 (memories (store_of records)) =
    Ok (scored words records).
Proof.
  destruct (store_of_lists records) as [M I]. rewrite M.
  apply (score_loop_records _ words [] records). exact I.
Qed.

(** C9, amended. In a store where every score for the query is a number,
    two records whose scores are equal and whose dictionaries are not equal
    make [search_similar] raise [TypeError], whatever [top_k]: the sort
    compares the tied tuples by their dictionaries. So [search_similar] is
    not total over the stores of two or more records. *)
Theorem search_similar_tie_raises
    (records : list (Dict * float)) (query : string) (top_k : Z)
    (r1 r2 : Dict * float) :
  let score r := score_of (PyStr.split (PyStr.lower query)) (fst r) (snd r) in
  Forall (fun r => is_nan (score r) = false) records ->
  r1 ∈ records -> r2 ∈ records ->
  (score r1 =? score r2)%float = true ->
  dict_eqb (fst r1) (fst r2) = false ->
  search_similar (store_of records) query top_k = Raise TypeError.
Proof.
  intros score Hn H1 H2 T D. unfold search_similar.
  rewrite score_loop_store. simpl.
  rewrite (sort_reverse_tie_raises _ (score r1, fst r1) (score r2, fst r2));
    try assumption; try reflexivity.
  - unfold scored. apply Forall_map. exact Hn.
  - unfold scored. apply (list_elem_of_fmap_2 (fun r => (score r, fst r))), H1.
  - unfold scored. apply (list_elem_of_fmap_2 (fun r => (score r, fst r))), H2.
Qed.

Lemma search_similar_tie_raises_witness :
  search_similar (store_of [(conv_hi, 0.4%float); (conv_rain, 0.4%float)])
    "quantum" 5 = Raise TypeError.
Proof.
  apply (search_similar_tie_raises
           [(conv_hi, 0.4%float); (conv_rain, 0.4%float)] "quantum" 5
           (conv_hi, 0.4%float) (conv_rain, 0.4%float)).
  - repeat (constructor; [vm_compute; reflexivity|]). constructor.
  - apply list_elem_of_here.
  - apply list_elem_of_further, list_elem_of_here.
  - vm_compute. reflexivity.
  - vm_compute. reflexivity.
Defined.

(** C9 as stated fails where the tied records hold equal dictionaries: the
    store has two records, both scoring 0 for "quantum" and both scoring
    1.4 for "hi", and [search_similar] returns for either query. *)
Lemma equal_records_tie_returns :
  let store := store_of [(conv_hi, 0.4%float); (conv_hi, 0.4%float)] in
  length (memories store) = 2%nat /\
  score_loop store ["quantum"] 0 (memories store) =
    Ok [(0.0%float, conv_hi); (0.0%float, conv_hi)] /\
  search_similar store "quantum" 5 = Ok [] /\
  search_similar store "hi" 5 = Ok [conv_hi; conv_hi].
Proof. vm_compute. repeat split; reflexivity. Qed.

(** C3, at its failing input. Two different records whose scores tie (both
    0 for a query that matches neither, both 1.4 for a query word found in
    each): [search_similar] returns no list, it raises [TypeError]. *)
Theorem search_similar_raises_on_tie :
  let store := store_of [(conv_hi, 0.4%float); (conv_rain, 0.4%float)] in
  search_similar store "quantum" 5 = Raise TypeError /\
  search_similar store "conversation" 5 = Raise TypeError.
Proof. vm_compute. split; reflexivity. Qed.

(** With scores that differ the search returns, best score first. *)
Example search_similar_distinct_scores :
  search_similar (store_of [(conv_hi, 0.4%float); (conv_rain, 0.7%float)])
    "Rain or HI" 5 = Ok [conv_rain; conv_hi].
Proof. vm_compute. reflexivity. Qed.

(** *** What holds of a search that returns *)

Lemma StronglySorted_snoc {A : Type} (R : A -> A -> Prop) (l : list A) (x : A) :
  StronglySorted R l -> Forall (fun y => R y x) l ->
  StronglySorted R (l ++ [x]).
Proof.
  induction 1 as [|y l S IH F]; simpl; intros H.
  - repeat constructor.
  - inversion H; subst. constructor; [apply IH; assumption|].
    apply Forall_app. split; [assumption | repeat constructor; assumption].
Qed.

Lemma StronglySorted_rev {A : Type} (R : A -> A -> Prop) (l : list A) :
  StronglySorted R l -> StronglySorted (fun a b => R b a) (rev l).
Proof.
  induction 1 as [|x l S IH F]; simpl; [constructor|].
  apply StronglySorted_snoc; [exact IH|].
  apply Forall_rev. exact F.
Qed.

Lemma StronglySorted_take {A : Type} (R : A -> A -> Prop) (n : nat)
    (l : list A) :
  StronglySorted R l -> StronglySorted R (take n l).
Proof.
  intros S. revert n. induction S as [|x l S IH F]; intros [|n]; simpl;
    try constructor.
  - apply IH.
  - apply Forall_take. exact F.
Qed.

Lemma StronglySorted_filter {A : Type} (R : A -> A -> Prop) (P : A -> Prop)
    `{forall x, Decision (P x)} (l : list A) :
  StronglySorted R l -> StronglySorted R (filter P l).
Proof.
  induction 1 as [|x l S IH F]; [constructor|].
  rewrite filter_cons. destruct (decide (P x)); [|exact IH].
  constructor; [exact IH|]. apply Forall_forall. intros y Hy.
  apply list_elem_of_filter in Hy as [_ Hy].
  rewrite Forall_forall in F. apply F, Hy.
Qed.

Lemma slice_to_take {A : Type} (k : Z) (l : list A) :
  exists n, slice_to k l = take n l /\ (0 <= k -> Z.of_nat n = k).
Proof.
  unfold slice_to. destruct (Z.ltb_spec k 0).
  - eexists. split; [reflexivity | lia].
  - eexists. split; [reflexivity | lia].
Qed.

(** When [search_similar] returns, on a store whose scores for the query
    are all numbers, it returns records of the store whose score is above
    0, best score first, and at most [top_k] of them for [top_k >= 0]. *)
Lemma search_similar_returned
    (records : list (Dict * float)) (query : string) (top_k : Z)
    (result : list Dict) :
  let words := PyStr.split (PyStr.lower query) in
  Forall number (scored words records) ->
  search_similar (store_of records) query top_k = Ok result ->
  exists chosen : list (float * Dict),
    result = map snd chosen /\
    Forall (fun sm => (0 <? fst sm)%float = true /\ sm ∈ scored words records)
           chosen /\
    StronglySorted (fun a b => fle b a) chosen /\
    (0 <= top_k -> Z.of_nat (length result) <= top_k).
Proof.
  intros words Hn. unfold search_similar. fold words.
  rewrite score_loop_store. simpl. unfold sort_reverse.
  destruct (list_sort (rev (scored words records))) as [sorted|e] eqn:Hs; simpl;
    [|discriminate].
  intros [= <-].
  destruct (sort_from_ok [] _ sorted sorted_prefix_nil (Forall_rev Hn) Hs)
    as [(S & _ & _) P]. simpl in P.
  destruct (slice_to_take top_k (rev sorted)) as (n & -> & Hk).
  eexists. split; [reflexivity|]. split; [|split].
  - apply Forall_forall. intros sm Hsm.
    apply list_elem_of_filter in Hsm as [Hpos Hin]. split; [exact Hpos|].
    apply elem_of_take in Hin as (i & Hi & _).
    apply list_elem_of_lookup_2 in Hi.
    apply list_elem_of_In, in_rev, list_elem_of_In in Hi.
    rewrite P in Hi. apply list_elem_of_In, in_rev, list_elem_of_In in Hi.
    exact Hi.
  - apply StronglySorted_filter, StronglySorted_take, StronglySorted_rev, S.
  - intros H0. rewrite length_map.
    pose proof (length_filter (fun sm => gtb (fst sm) 0 = true)
                  (take n (rev sorted))) as L.
    rewrite length_take in L. specialize (Hk H0). lia.
Qed.

End MemoryFacts.

(** ** The calculate tool *)

Module ToolFacts.
Import PyStr PyEval Tools.

(** [safe] keeps exactly the characters of the class, in order. *)
Lemma safe_filter (expression : string) :
  list_ascii_of_string (safe expression) =
    filter (fun c => kept c = true) (list_ascii_of_string expression).
Proof.
  induction expression as [|c rest IH]; simpl; [reflexivity|].
  rewrite filter_cons. destruct (kept c) eqn:K; simpl.
  - destruct (decide (true = true)); [|congruence]. rewrite IH. reflexivity.
  - destruct (decide (false = true)); [congruence|]. exact IH.
Qed.

(** A character outside the class leaves no trace in the text evaluated. *)
Lemma safe_skips_foreign (before after : string) (c : ascii) :
  kept c = false ->
  safe (before ++ String c after) = safe (before ++ after).
Proof.
  intros K. induction before as [|b before IH].
  - change (safe (String c after) = safe after). simpl. rewrite K. reflexivity.
  - change (safe (String b (before ++ String c after)) =
            safe (String b (before ++ after))).
    simpl. rewrite IH. reflexivity.
Qed.

(** An expression of spaces and characters outside the class is cut down
    to blank text. *)
Lemma safe_blank (expression : string) :
  Forall (fun c => kept c = false \/ c = " "%char)
         (list_ascii_of_string expression) ->
  blank (safe expression) = true.
Proof.
  induction expression as [|c rest IH]; simpl; intros H; [reflexivity|].
  inversion H as [|? ? Hc Hrest]; subst.
  destruct Hc as [K| ->].
  - rewrite K. apply IH, Hrest.
  - simpl. apply IH, Hrest.
Qed.

(** The operators keep to integers and the error of a division by
    zero. *)
Lemma binary_arithmetic (op : Z -> Z -> Result Z) (a b : Result Z) :
  (forall x y, arithmetic (op x y)) ->
  arithmetic a -> arithmetic b -> arithmetic (binary op a b).
Proof.
  intros Hop Ha Hb. destruct a as [x|ea], b as [y|eb]; simpl; auto.
Qed.

Lemma floordiv_arithmetic (x y : Z) : arithmetic (floordiv x y).
Proof. unfold floordiv. destruct (y =? 0)%Z; simpl; auto. Qed.

(** The value of a parsed expression is an integer or the error of a
    division by zero. *)
Lemma parse_arithmetic (fuel : nat) :
  forall (m : mode) (toks : list token) (v : Result Z) (rest : list token),
    match m with
    | SumRest acc | TermRest acc => arithmetic acc
    | _ => True
    end ->
    parse fuel m toks = Parsed (v, rest) -> arithmetic v.
Proof.
  induction fuel as [|fuel IH]; intros m toks v rest Hm H; [discriminate|].
  destruct m as [|acc| |acc|]; simpl in H.
  - destruct (parse fuel Term toks) as [[v1 r1]| |] eqn:E; try discriminate.
    apply (IH (SumRest v1) r1 v rest); [|exact H].
    apply (IH Term toks v1 r1 I E).
  - destruct toks as [|[n| | | | | |] toks];
      try (injection H as <- <-; exact Hm).
    + destruct (parse fuel Term toks) as [[v1 r1]| |] eqn:E;
        try discriminate.
      apply (IH (SumRest (binary add acc v1)) r1 v rest); [|exact H].
      apply binary_arithmetic; [intros; exact I | exact Hm |].
      apply (IH Term toks v1 r1 I E).
    + destruct (parse fuel Term toks) as [[v1 r1]| |] eqn:E;
        try discriminate.
      apply (IH (SumRest (binary sub acc v1)) r1 v rest); [|exact H].
      apply binary_arithmetic; [intros; exact I | exact Hm |].
      apply (IH Term toks v1 r1 I E).
  - destruct (parse fuel Factor toks) as [[v1 r1]| |] eqn:E;
      try discriminate.
    apply (IH (TermRest v1) r1 v rest); [|exact H].
    apply (IH Factor toks v1 r1 I E).
  - destruct toks as [|[n| | | | | |] toks];
      try (injection H as <- <-; exact Hm).
    + destruct (parse fuel Factor toks) as [[v1 r1]| |] eqn:E;
        try discriminate.
      apply (IH (TermRest (binary mul acc v1)) r1 v rest); [|exact H].
      apply binary_arithmetic; [intros; exact I | exact Hm |].
      apply (IH Factor toks v1 r1 I E).
    + destruct (parse fuel Factor toks) as [[v1 r1]| |] eqn:E;
        try discriminate.
      apply (IH (TermRest (binary floordiv acc v1)) r1 v rest); [|exact H].
      apply binary_arithmetic; [apply floordiv_arithmetic | exact Hm |].
      apply (IH Factor toks v1 r1 I E).
  - destruct toks as [|[n| | | | | |] toks]; try discriminate.
    + injection H as <- <-. exact I.
    + apply (IH Factor toks v rest I H).
    + destruct (parse fuel Factor toks) as [[v1 r1]| |] eqn:E;
        try discriminate.
      injection H as <- <-.
      pose proof (IH Factor toks v1 r1 I E) as A.
      destruct v1; simpl; auto.
    + destruct (parse fuel Sum toks) as [[v1 r1]| |] eqn:E;
        try discriminate.
      destruct r1 as [|[n| | | | | |] r1]; try discriminate.
      injection H as <- <-. apply (IH Sum toks v1 (TClose :: r1) I E).
Qed.

(** What the model of [eval] answers: a text within the limit, unless it
    is blank; and no exception but the two of the arithmetic. *)
Lemma py_eval_answers (source : string) (r : Result Z) :
  py_eval source = Some r ->
  (blank source = true \/ (String.length source <= limit)%nat) /\
  match r with
  | Ok _ => True
  | Raise e => e = SyntaxError \/ e = ZeroDivisionError
  end.
Proof.
  unfold py_eval. destruct (blank source); [intros [= <-]; auto|].
  destruct (Nat.ltb_spec limit (String.length source)); [discriminate|].
  destruct (lex _ source) as [toks|]; [|discriminate].
  destruct (calls toks); [discriminate|].
  destruct (parse _ Sum toks) as [[v [|tok rest]]| |] eqn:E;
    try discriminate; intros [= <-]; (split; [right; lia|]); auto.
  pose proof (parse_arithmetic _ Sum toks v [] I E) as A.
  destruct v; simpl in *; auto.
Qed.

(** C4, amended. [calculate("2+2*3")] returns "Calculation: 2+2*3 = 8".
    For every expression, [calculate] deletes the characters other than
    digits, [+ - * / ( ) .] and the space, and evaluates the text left: no
    token is rejected before the evaluation, and a deleted character
    changes nothing in what is evaluated. The evaluation is followed for
    blank text and for integer arithmetic of at most 100 characters:
    integer literals, [+ - * //], unary signs and parentheses. When such a
    text evaluates to [n] the result is "Calculation: <expression> = n";
    when it is no expression, or divides by zero, the result is
    "Calculation error: " followed by the message of the [SyntaxError] or
    of the [ZeroDivisionError]; these are the only two exceptions. An
    expression of spaces and deleted characters only, such as "import os",
    is cut down to blank text, whose evaluation is a syntax error. What
    [eval] makes of the other texts that pass the filter (with [/], [**]
    or a point, with a call or empty parentheses, or longer) is not
    followed. *)
Theorem calculate_evaluates_kept_characters (expression : string) :
  calculate "2+2*3" = Some (Said "Calculation: 2+2*3 = 8") /\
  calculate "import os" = Some (Failed "Calculation error: " SyntaxError) /\
  list_ascii_of_string (safe expression) =
    filter (fun c => kept c = true) (list_ascii_of_string expression) /\
  (forall (before after : string) (c : ascii),
     expression = before ++ String c after -> kept c = false ->
     safe expression = safe (before ++ after)) /\
  (forall n : Z,
     py_eval (safe expression) = Some (Ok n) ->
     calculate expression =
       Some (Said ("Calculation: " ++ expression ++ " = " ++ pretty n))) /\
  (forall e : PyExn,
     py_eval (safe expression) = Some (Raise e) ->
     (e = SyntaxError \/ e = ZeroDivisionError) /\
     calculate expression = Some (Failed "Calculation error: " e)) /\
  (forall r : Result Z,
     py_eval (safe expression) = Some r ->
     blank (safe expression) = true \/
     (String.length (safe expression) <= 100)%nat) /\
  (Forall (fun c => kept c = false \/ c = " "%char)
          (list_ascii_of_string expression) ->
   calculate expression = Some (Failed "Calculation error: " SyntaxError)).
Proof.
  split; [vm_compute; reflexivity|].
  split; [vm_compute; reflexivity|].
  split; [apply safe_filter|].
  split; [intros before after c -> K; apply safe_skips_foreign, K|].
  unfold calculate.
  split; [intros n H; rewrite H; reflexivity|].
  split.
  { intros e H. split; [|rewrite H; reflexivity].
    exact (proj2 (py_eval_answers _ _ H)). }
  split; [intros r H; exact (proj1 (py_eval_answers _ _ H))|].
  intros H. unfold py_eval. rewrite (safe_blank _ H). reflexivity.
Qed.

Lemma calculate_evaluates_kept_characters_witness :
  calculate "2+2abc" = Some (Said "Calculation: 2+2abc = 4") /\
  safe "2+2abc" = safe "2+2bc" /\
  calculate "7 // (3 - 3) apples" =
    Some (Failed "Calculation error: " ZeroDivisionError) /\
  calculate "2 + times 3 )" =
    Some (Failed "Calculation error: " SyntaxError) /\
  calculate "what is love" = Some (Failed "Calculation error: " SyntaxError).
Proof.
  destruct (calculate_evaluates_kept_characters "2+2abc")
    as (_ & _ & _ & Skip & Value & _).
  destruct (calculate_evaluates_kept_characters "7 // (3 - 3) apples")
    as (_ & _ & _ & _ & _ & Zero & _).
  destruct (calculate_evaluates_kept_characters "2 + times 3 )")
    as (_ & _ & _ & _ & _ & Syntax & _).
  destruct (calculate_evaluates_kept_characters "what is love")
    as (_ & _ & _ & _ & _ & _ & _ & Blank).
  split; [apply (Value 4); vm_compute; reflexivity|].
  split; [apply (Skip "2+2" "bc" "a"%char); reflexivity|].
  split; [apply (Zero ZeroDivisionError); vm_compute; reflexivity|].
  split; [apply (Syntax SyntaxError); vm_compute; reflexivity|].
  apply Blank. repeat (constructor; [vm_compute; auto|]). constructor.
Defined.

(** C4 as stated fails at "2+2abc": the letters are no token of the
    grammar, yet the call does not fail; the text "2+2" is evaluated. *)
Lemma calculate_accepts_foreign_token :
  kept "a" = false /\ safe "2+2abc" = "2+2" /\
  calculate "2+2abc" = Some (Said "Calculation: 2+2abc = 4").
Proof. vm_compute. repeat split; reflexivity. Qed.

End ToolFacts.

(** ** The dispatcher *)

Module AgentFacts.
Import PyStr PyParse Tools Agent.

(** A text that starts with [p] is [p] followed by its slice after [p]. *)
Lemma startswith_app (p s : string) :
  startswith s p = true -> s = p ++ slice_from (String.length p) s.
Proof.
  revert s. induction p as [|a p IH]; intros s H.
  - reflexivity.
  - destruct s as [|b s]; simpl in H; [discriminate|].
    apply andb_true_iff in H as [Hab Hp].
    apply Ascii.eqb_eq in Hab. subst b.
    change (String a s = String a (p ++ slice_from (String.length p) s)).
    f_equal. apply IH, Hp.
Qed.

(** C10. For every command whose normalised text is "write_file " followed
    by [rest] (so for "write_file <name> <content>"), the slice at index 10
    starts with the space, the split yields the empty string first, and the
    tool is called with the empty string as filename and all of [rest] as
    content; the dispatcher makes no other call of the tool. Opening the
    empty path fails: the call changes no file, so a file of the given name
    is never the one written. *)
Theorem write_file_gets_empty_filename
    (command : string) (config : Configuration.Config) (fs : FS) :
  (forall rest : string,
     strip (lower command) = "write_file " ++ rest ->
     process_command command =
       Ok (Some (use_tool "write_file" [""; rest]))) /\
  (forall args : list string,
     process_command command = Ok (Some (use_tool "write_file" args)) ->
     exists rest : string,
       strip (lower command) = "write_file " ++ rest /\ args = [""; rest]) /\
  (forall rest : string,
     Tools.use_tool (Tools.init config) fs "write_file" [""; rest] =
       Some (fs, Failed "File write error: " FileNotFoundError)).
Proof.
  split; [|split].
  - intros rest H. unfold process_command. rewrite H. vm_compute. reflexivity.
  - intros args. unfold process_command.
    set (c := strip (lower command)).
    destruct (startswith c "search "); [intros [= H _]; discriminate H|].
    destruct (startswith c "calculate "); [intros [= H _]; discriminate H|].
    destruct (startswith c "write_file ") eqn:W.
    { apply startswith_app in W. simpl String.length in W.
      remember (slice_from 11 c) as rest eqn:R. clear R.
      rewrite W. simpl. intros [= <-]. exists rest. split; reflexivity. }
    destruct (startswith c "read_file "); [intros [= H _]; discriminate H|].
    destruct (startswith c "run "); [intros [= H _]; discriminate H|].
    destruct (startswith c "add_goal "); [discriminate|].
    destruct (startswith c "progress ").
    { destruct (split _) as [|p0 [|p1 [|p2 ps]]]; try discriminate.
      destruct (py_int p0); simpl; [|discriminate].
      destruct (py_float p1); simpl; discriminate. }
    repeat match goal with
           | |- context [String.eqb c ?t] => destruct (String.eqb c t)
           end; discriminate.
  - intros rest. vm_compute. reflexivity.
Qed.

Lemma write_file_gets_empty_filename_witness :
  process_command "write_file Notes.txt Buy MILK" =
    Ok (Some (use_tool "write_file" [""; "notes.txt buy milk"])) /\
  Tools.use_tool (Tools.init Configuration.default) ∅ "write_file"
      [""; "notes.txt buy milk"] =
    Some (∅, Failed "File write error: " FileNotFoundError).
Proof.
  destruct (write_file_gets_empty_filename
              "write_file Notes.txt Buy MILK" Configuration.default ∅)
    as (Route & _ & Open).
  split; [apply Route; reflexivity | apply Open].
Defined.

(** C5, at its failing inputs. A [progress] command whose id or value is
    not numeric makes [int] or [float] raise [ValueError] inside
    [process_command], which has no handler: the exception leaves the
    method. A [progress] command with one argument takes the branch and
    ends without [return]: the method returns [None], not a string. *)
Theorem process_command_raises_or_returns_none :
  process_command "progress abc 0.5" = Raise ValueError /\
  process_command "progress 1 half" = Raise ValueError /\
  process_command "progress 1" = Ok None.
Proof. vm_compute. repeat split; reflexivity. Qed.

(** A well-formed [progress] command, for comparison. *)
Example process_command_progress :
  process_command "  Progress 2 1.5 " = Ok (Some (update_progress 2 1.5%float)).
Proof. vm_compute. reflexivity. Qed.

(** C7, at its failing input. [ThinkerGOAT.__init__] builds [GoalSystem()]
    without the configuration, so the tracker's limit is 5 whatever
    [max_goals] the configuration holds: with the option set to 3, four
    [add_goal] commands leave four active goals. *)
Theorem configured_max_goals_not_enforced :
  (forall config : Configuration.Config,
     Goals.max_goals (goals (init config)) = 5) /\
  exists self fs,
    run (init Configuration.max_goals_3) ∅
      [("add_goal a", "t1"); ("add_goal b", "t2"); ("add_goal c", "t3");
       ("add_goal d", "t4")]
    = Some (self, fs,
            [Said "Goal added: a"; Said "Goal added: b"; Said "Goal added: c";
             Said "Goal added: d"]) /\
    Goals.active_count (goals self) = 4 /\
    Configuration.max_goals (config self) = 3.
Proof.
  split; [reflexivity|].
  eexists _, _. split; [vm_compute; reflexivity|]. split; reflexivity.
Qed.

End AgentFacts.

(** ** What is not a number *)

Module NanFacts.
Import FloatFacts.
Local Open Scope float_scope.

Lemma is_nan_eq (x : float) : is_nan x = true -> x = nan.
Proof.
  intros H. apply Prim2SF_inj. apply Prim2SF_nan in H. rewrite H. reflexivity.
Qed.

Lemma mul_nan (k : float) : k * nan = nan.
Proof.
  apply Prim2SF_inj. rewrite mul_spec.
  change (Prim2SF nan) with S754_nan.
  destruct (Prim2SF k); reflexivity.
Qed.

Lemma add_nan (a : float) : a + nan = nan.
Proof.
  apply Prim2SF_inj. rewrite add_spec.
  change (Prim2SF nan) with S754_nan.
  destruct (Prim2SF a); reflexivity.
Qed.

End NanFacts.

(** ** The goals a tracker holds *)

Module GoalInvariants.
Import PyFloat FloatFacts Goals GoalFacts GoalNotions.

Lemma active_completed limit goal now :
  active_ok limit goal -> completed_ok limit (completed_at goal now).
Proof.
  intros (I & _ & L & U). repeat split; simpl; try tauto; try eauto.
  apply ltb_leb, U.
Qed.

Lemma complete_goal_well_formed self goal_id now :
  well_formed self -> well_formed (fst (complete_goal self goal_id now)).
Proof.
  intros (B & A & C). unfold complete_goal.
  destruct (first_with_id goal_id (active_goals self))
    as [Abs|(before & goal & after & E & Abs & Hid)].
  - rewrite (pop_first_absent _ _ Abs). simpl. repeat split; assumption.
  - unfold active_count in B. rewrite E in A, B.
    rewrite E, (pop_first_found _ _ _ _ Abs Hid). simpl.
    apply Forall_app in A as [Ab Ag].
    inversion Ag as [|? ? Hg Ha]; subst.
    rewrite length_app in B. simpl in B.
    split; [unfold active_count; simpl; rewrite length_app; lia|]. split.
    + apply Forall_app. split; assumption.
    + apply Forall_app. split; [assumption|].
      constructor; [|constructor]. apply active_completed, Hg.
Qed.

(** Below 1.0 a stored progress is strictly below it. *)
Lemma below_one (value : float) :
  (value <=? 1)%float = true -> geb value 1 = false ->
  (value <? 1)%float = true.
Proof.
  unfold geb. rewrite leb_cmp, ltb_cmp, leb_cmp, (fcmp_opp value 1).
  destruct (fcmp value 1) as [[]|]; simpl; congruence.
Qed.

Lemma update_progress_well_formed self goal_id progress now :
  well_formed self ->
  well_formed (fst (update_progress self goal_id progress now)).
Proof.
  intros (B & A & C).
  destruct (first_with_id goal_id (active_goals self))
    as [Abs|(before & goal & after & E & Abs & Hid)].
  - rewrite (update_progress_absent _ _ _ _ Abs). repeat split; assumption.
  - rewrite (update_progress_found _ _ progress now _ _ _ E Abs Hid).
    destruct (stored_progress progress) as (L & U & _).
    rewrite E in A. apply Forall_app in A as [Ab Ag].
    inversion Ag as [|? ? Hg Ha]; subst.
    destruct Hg as (I & N & _ & _).
    unfold active_count in *. rewrite E in B. rewrite length_app in B.
    simpl in B.
    destruct (geb (py_max 0 (py_min 1 progress)) 1) eqn:G; simpl.
    + split; [unfold active_count; simpl; rewrite length_app; lia|].
      split; simpl.
      * apply Forall_app. split; assumption.
      * apply Forall_app. split; [assumption|].
        constructor; [|constructor]. repeat split; simpl; try tauto; eauto.
    + split; [unfold active_count; simpl; rewrite length_app; simpl; lia|].
      split; simpl; [|assumption].
      apply Forall_app. split; [assumption|]. constructor; [|assumption].
      repeat split; simpl; try tauto. apply below_one; assumption.
Qed.

Lemma add_goal_well_formed self description priority now :
  well_formed self ->
  well_formed (fst (add_goal self description priority now)).
Proof.
  intros (B & A & C). unfold add_goal.
  destruct (Z.leb_spec (max_goals self) (active_count self)); simpl.
  - repeat split; assumption.
  - split; [unfold active_count at 1; simpl; rewrite active_count_app; lia|].
    split; simpl; [|assumption].
    apply Forall_app. split; [assumption|]. constructor; [|constructor].
    unfold active_ok. simpl. unfold active_count in *.
    repeat split; try lia; reflexivity.
Qed.

Lemma step_well_formed self op now :
  well_formed self -> well_formed (fst (step self op now)).
Proof.
  destruct op; simpl.
  - apply add_goal_well_formed.
  - apply update_progress_well_formed.
  - apply complete_goal_well_formed.
Qed.

Lemma run_well_formed self ops :
  well_formed self -> well_formed (run self ops).
Proof.
  revert self. induction ops as [|[op now] ops IH]; simpl; intros self H.
  - exact H.
  - apply IH, step_well_formed, H.
Qed.

Lemma init_well_formed : well_formed init.
Proof.
  split; [unfold active_count; simpl; lia|]. split; constructor.
Qed.

End GoalInvariants.

(** ** The life of a goal *)

Module GoalLife.
Import PyFloat FloatFacts NanFacts Goals GoalFacts GoalNotions GoalInvariants.

Lemma stored_twice (progress : float) :
  py_max 0 (py_min 1 (py_max 0 (py_min 1 progress))) =
    py_max 0 (py_min 1 progress).
Proof.
  unfold py_max, py_min.
  destruct (progress <? 1)%float eqn:U.
  - destruct (0 <? progress)%float eqn:L.
    + rewrite U, L. reflexivity.
    + reflexivity.
  - reflexivity.
Qed.

(** Whatever the operations on a fresh tracker, every goal it holds,
    active or completed, carries an id from 1 to 5. *)
Theorem goal_ids_stay_within_limit (ops : list (Op * string)) :
  Forall (fun goal => 1 <= id goal <= 5)
         (active_goals (run init ops) ++ completed_goals (run init ops)).
Proof.
  destruct (run_well_formed init ops init_well_formed) as (_ & A & C).
  assert (B : active_count init <= max_goals init)
    by (unfold active_count; simpl; lia).
  destruct (run_bound init ops B) as [M _]. simpl in M. rewrite M in A, C.
  apply Forall_app. split.
  - eapply Forall_impl; [exact A|]. intros g (I & _). exact I.
  - eapply Forall_impl; [exact C|]. intros g (I & _). exact I.
Qed.

(** Whatever the operations on a fresh tracker: an active goal has no
    completion stamp and a progress from 0 up to, not including, 1; a
    completed goal has a stamp and a progress from 0 to 1; no goal is in
    both lists. *)
Theorem active_and_completed_goals_apart (ops : list (Op * string)) :
  Forall (fun goal => completed goal = None /\
                      (0 <=? progress goal)%float = true /\
                      (progress goal <? 1)%float = true)
         (active_goals (run init ops)) /\
  Forall (fun goal => is_Some (completed goal) /\
                      (0 <=? progress goal)%float = true /\
                      (progress goal <=? 1)%float = true)
         (completed_goals (run init ops)) /\
  (forall goal, goal ∈ active_goals (run init ops) ->
                goal ∉ completed_goals (run init ops)).
Proof.
  destruct (run_well_formed init ops init_well_formed) as (_ & A & C).
  split; [|split].
  - eapply Forall_impl; [exact A|]. intros g (_ & H). exact H.
  - eapply Forall_impl; [exact C|]. intros g (_ & H). exact H.
  - intros goal Ha Hc.
    rewrite Forall_forall in A, C.
    destruct (A goal Ha) as (_ & N & _).
    destruct (C goal Hc) as (_ & [t S] & _). congruence.
Qed.

(** [update_progress] on the first active goal with the id stores
    [max(0.0, min(1.0, progress))], a value within [[0, 1]] that is the
    clamped progress when the progress is a number; from 1.0 on the goal
    leaves the active list, at its place, and joins the end of the completed
    list with its stamp; below 1.0 it stays where it is. The other goals
    are not touched. *)
Theorem update_progress_stores_and_moves
    (self : GoalSystem) (goal_id : Z) (progress : float) (now : string)
    (before after : list Goal) (goal : Goal) :
  active_goals self = (before ++ goal :: after)%list ->
  absent goal_id before -> id goal = goal_id ->
  let stored := py_max 0 (py_min 1 progress) in
  (0 <=? stored)%float = true /\ (stored <=? 1)%float = true /\
  (is_nan progress = false -> stored = clamp 0 1 progress) /\
  update_progress self goal_id progress now =
    (if geb stored 1 then
       {| active_goals := before ++ after;
          completed_goals :=
            completed_goals self ++
              [completed_at (with_progress goal stored) now];
          max_goals := max_goals self |}
     else
       {| active_goals := before ++ with_progress goal stored :: after;
          completed_goals := completed_goals self;
          max_goals := max_goals self |},
     "Progress updated for goal " ++ pretty goal_id).
Proof.
  intros E Abs Hid stored.
  destruct (stored_progress progress) as (L & U & K).
  repeat split; try assumption.
  apply update_progress_found; assumption.
Qed.

Lemma update_progress_stores_and_moves_witness :
  map (fun goal => (description goal, progress goal))
      (active_goals (fst (update_progress five_goals 3 0.25%float "t6"))) =
    [("a", 0%float); ("b", 0%float); ("c", 0.25%float); ("d", 0%float);
     ("e", 0%float)] /\
  map description
      (active_goals (fst (update_progress five_goals 3 7%float "t6"))) =
    ["a"; "b"; "d"; "e"].
Proof.
  pose (before := [new_goal 1 "a" "t1"; new_goal 2 "b" "t2"]).
  pose (after := [new_goal 4 "d" "t4"; new_goal 5 "e" "t5"]).
  assert (Abs : absent 3 before) by (repeat constructor; discriminate).
  destruct (update_progress_stores_and_moves five_goals 3 0.25%float "t6"
              before after (new_goal 3 "c" "t3") eq_refl Abs eq_refl)
    as (_ & _ & _ & Low).
  destruct (update_progress_stores_and_moves five_goals 3 7%float "t6"
              before after (new_goal 3 "c" "t3") eq_refl Abs eq_refl)
    as (_ & _ & _ & High).
  split; [rewrite Low | rewrite High]; reflexivity.
Defined.

Lemma second_attempt_not_found_witness :
  snd (complete_goal (fst (update_progress five_goals 3 1.5%float "t6"))
         3 "t7") = goal_not_found /\
  snd (update_progress (fst (update_progress five_goals 3 1.5%float "t6"))
         3 0.5%float "t7") = goal_not_found.
Proof.
  pose (before := [new_goal 1 "a" "t1"; new_goal 2 "b" "t2"]).
  pose (after := [new_goal 4 "d" "t4"; new_goal 5 "e" "t5"]).
  assert (Hb : absent 3 before) by (repeat constructor; discriminate).
  assert (Ha : absent 3 after) by (repeat constructor; discriminate).
  destruct (second_attempt_not_found five_goals 3 1.5%float "t6" "t7"
              before (new_goal 3 "c" "t3") after eq_refl Hb Ha eq_refl eq_refl)
    as [C U].
  split; [exact C | apply U].
Defined.

(** With an id that no active goal carries, [update_progress] and
    [complete_goal] return "Goal not found" and leave the tracker as it
    is. *)
Theorem unknown_goal_id_changes_nothing
    (self : GoalSystem) (goal_id : Z) (progress : float) (now : string) :
  absent goal_id (active_goals self) ->
  update_progress self goal_id progress now = (self, goal_not_found) /\
  complete_goal self goal_id now = (self, goal_not_found).
Proof.
  intros H. split.
  - apply update_progress_absent, H.
  - apply complete_goal_absent, H.
Qed.

Lemma unknown_goal_id_changes_nothing_witness :
  update_progress reused_id 1 0.5%float "t5" = (reused_id, goal_not_found) /\
  complete_goal reused_id 1 "t5" = (reused_id, goal_not_found).
Proof.
  apply (unknown_goal_id_changes_nothing reused_id 1 0.5%float "t5").
  repeat constructor; discriminate.
Defined.

Lemma step_completed_prefix self op now :
  completed_goals self `prefix_of` completed_goals (fst (step self op now)).
Proof.
  destruct op as [description priority|goal_id progress|goal_id]; simpl.
  - unfold add_goal. destruct (_ <=? _)%Z; reflexivity.
  - destruct (first_with_id goal_id (active_goals self))
      as [Abs|(before & goal & after & E & Abs & Hid)].
    + rewrite (update_progress_absent _ _ _ _ Abs). reflexivity.
    + rewrite (update_progress_found _ _ progress now _ _ _ E Abs Hid).
      destruct (geb _ _); simpl; [apply prefix_app_r|]; reflexivity.
  - unfold complete_goal.
    destruct (pop_first goal_id (active_goals self)) as [[goal rest]|]; simpl;
      [apply prefix_app_r|]; reflexivity.
Qed.

(** The completed list only grows at its end: whatever the operations,
    the goals completed before are still there, in their order and
    unchanged. *)
Theorem completed_goals_only_grow
    (self : GoalSystem) (ops : list (Op * string)) :
  completed_goals self `prefix_of` completed_goals (run self ops).
Proof.
  revert self. induction ops as [|[op now] ops IH]; simpl; intros self.
  - reflexivity.
  - etransitivity; [apply (step_completed_prefix self op now) | apply IH].
Qed.

(** [update_progress] with a progress is [update_progress] with the
    clamped progress; a progress that is not a number counts as 1.0, since
    [min(1.0, nan)] is 1.0: it completes the goal. *)
Theorem progress_that_is_not_a_number_completes
    (self : GoalSystem) (goal_id : Z) (progress : float) (now : string) :
  update_progress self goal_id (py_max 0 (py_min 1 progress)) now =
    update_progress self goal_id progress now /\
  (is_nan progress = true ->
   update_progress self goal_id progress now =
     update_progress self goal_id 1 now).
Proof.
  split.
  - unfold update_progress. rewrite stored_twice. reflexivity.
  - intros H. apply is_nan_eq in H. subst. reflexivity.
Qed.

Lemma progress_that_is_not_a_number_completes_witness :
  map description
      (completed_goals (fst (update_progress five_goals 2 nan "t6"))) = ["b"].
Proof.
  destruct (progress_that_is_not_a_number_completes five_goals 2 nan "t6")
    as [_ N].
  rewrite (N eq_refl). reflexivity.
Defined.

Lemma identities_moved
    (before after done : list Goal) (goal moved : Goal) :
  identity moved = identity goal ->
  map identity ((before ++ after) ++ done ++ [moved]) ≡ₚ
  map identity ((before ++ goal :: after) ++ done).
Proof.
  intros H. rewrite !map_app. simpl. rewrite H.
  rewrite <- !app_assoc. apply Permutation_app_head.
  rewrite (Permutation_app_comm (map identity done)). simpl.
  rewrite Permutation_middle. apply Permutation_app_head.
  reflexivity.
Qed.

(** [update_progress] and [complete_goal] neither lose nor duplicate a
    goal: the goals of the two lists together, taken by id, description,
    priority and creation stamp, are the same before and after. *)
Theorem goals_are_neither_lost_nor_duplicated
    (self : GoalSystem) (goal_id : Z) (progress : float) (now : string) :
  identities (fst (update_progress self goal_id progress now)) ≡ₚ
    identities self /\
  identities (fst (complete_goal self goal_id now)) ≡ₚ identities self.
Proof.
  unfold identities.
  destruct (first_with_id goal_id (active_goals self))
    as [Abs|(before & goal & after & E & Abs & Hid)].
  - rewrite (update_progress_absent _ _ _ _ Abs).
    rewrite (complete_goal_absent _ _ _ Abs). split; reflexivity.
  - rewrite (update_progress_found _ _ progress now _ _ _ E Abs Hid).
    unfold complete_goal. rewrite E, (pop_first_found _ _ _ _ Abs Hid).
    split.
    + destruct (geb _ _); simpl.
      * apply identities_moved. reflexivity.
      * rewrite !map_app. simpl. reflexivity.
    + simpl. apply identities_moved. reflexivity.
Qed.

End GoalLife.

(** ** The mood at the edges *)

Module MoodEdges.
Import PyFloat FloatFacts NanFacts Mood MoodFacts.
Local Open Scope float_scope.

(** From any state, in range or not, one reaction is enough: after a
    first reward, whatever the rewards that follow, energy is within
    [[0, 100]] and curiosity within [[0, 1]]. [react] never changes calm
    and frustration. *)
Theorem one_reaction_brings_any_state_in_range
    (self : FeelingEngine) (reward : float) (rewards : list float) :
  in_range (react_all self (reward :: rewards)) /\
  calm (react_all self (reward :: rewards)) = calm self /\
  frustration (react_all self (reward :: rewards)) = frustration self.
Proof.
  unfold react_all. simpl.
  split; [apply (react_all_in_range (react self reward)), react_in_range|].
  change (calm self) with (calm (react self reward)).
  change (frustration self) with (frustration (react self reward)).
  generalize (react self reward). clear self reward.
  induction rewards as [|r rewards IH]; simpl; intros s; [auto|].
  destruct (IH (react s r)) as [C F]. simpl in C, F. auto.
Qed.

(** A reward that is not a number does not spoil the state: [min] and
    [max] turn the sums into the upper bounds, energy 100 and curiosity 1,
    and the mood reads "energetic". *)
Theorem reward_that_is_not_a_number_saturates
    (self : FeelingEngine) (reward : float) :
  is_nan reward = true ->
  energy (react self reward) = 100 /\
  curiosity (react self reward) = 1 /\
  get_mood (react self reward) = "energetic"%string.
Proof.
  intros H. apply is_nan_eq in H. subst.
  unfold get_mood, react. simpl.
  rewrite ?mul_nan, ?add_nan. repeat split; reflexivity.
Qed.

Lemma reward_that_is_not_a_number_saturates_witness :
  energy (react init (0 / 0)) = 100 /\
  curiosity (react init (0 / 0)) = 1 /\
  get_mood (react init (0 / 0)) = "energetic"%string.
Proof.
  apply (reward_that_is_not_a_number_saturates init (0 / 0)). reflexivity.
Defined.

End MoodEdges.

(** ** The search on small and unmatched stores *)

Module SearchFacts.
Import PyFloat FloatFacts Memory MemoryFacts.

Lemma search_similar_returned_witness :
  exists chosen : list (float * Dict),
    [conv_rain; conv_hi] = map snd chosen /\
    Forall (fun sm =>
              (0 <? fst sm)%float = true /\
              sm ∈ scored (PyStr.split (PyStr.lower "Rain or HI"))
                     [(conv_hi, 0.4%float); (conv_rain, 0.7%float)])
           chosen /\
    StronglySorted (fun a b => fle b a) chosen /\
    (0 <= 5 -> Z.of_nat (length [conv_rain; conv_hi]) <= 5).
Proof.
  apply (search_similar_returned
           [(conv_hi, 0.4%float); (conv_rain, 0.7%float)] "Rain or HI" 5
           [conv_rain; conv_hi]).
  - repeat (constructor; [vm_compute; reflexivity|]). constructor.
  - vm_compute. reflexivity.
Defined.

(** On a store built by [add_memory], the only exception [search_similar]
    raises is the [TypeError] of a comparison of two dictionaries: the index
    into [importance_scores] is always in range. *)
Theorem search_raises_nothing_but_type_error
    (records : list (Dict * float)) (query : string) (top_k : Z) (e : PyExn) :
  search_similar (store_of records) query top_k = Raise e -> e = TypeError.
Proof.
  unfold search_similar. rewrite score_loop_store. simpl. unfold sort_reverse.
  destruct (list_sort _) as [sorted|e'] eqn:Hs; simpl; [discriminate|].
  intros [= <-]. eapply sort_from_raise, Hs.
Qed.

Lemma search_raises_nothing_but_type_error_witness : TypeError = TypeError.
Proof.
  apply (search_raises_nothing_but_type_error
           [(conv_hi, 0.4%float); (conv_rain, 0.4%float)] "quantum" 5
           TypeError).
  vm_compute. reflexivity.
Defined.

Lemma slice_to_one {A : Type} (k : Z) (x : A) :
  slice_to k [x] = if (1 <=? k)%Z then [x] else [].
Proof.
  unfold slice_to. simpl length.
  destruct (Z.ltb_spec k 0), (Z.leb_spec 1 k); try lia.
  - replace (Z.to_nat (Z.of_nat 1 + k)) with 0%nat by lia. reflexivity.
  - destruct (Z.to_nat k) as [|[|n]] eqn:E; [lia | reflexivity | reflexivity].
  - replace (Z.to_nat k) with 0%nat by lia. reflexivity.
Qed.

(** The search of the empty store returns the empty list; the search of a
    store of one record returns that record when its score is above 0 and
    [top_k] is at least 1, and the empty list otherwise. Neither raises. *)
Theorem search_of_at_most_one_record
    (memory : Dict) (importance : float) (query : string) (top_k : Z) :
  search_similar init query top_k = Ok [] /\
  search_similar (store_of [(memory, importance)]) query top_k =
    Ok (if gtb (score_of (PyStr.split (PyStr.lower query)) memory importance) 0
           && (1 <=? top_k)%Z
        then [memory] else []).
Proof.
  split.
  - unfold search_similar. simpl. unfold slice_to.
    destruct (top_k <? 0)%Z; rewrite take_nil; reflexivity.
  - unfold search_similar. rewrite score_loop_store. simpl.
    rewrite slice_to_one.
    destruct (1 <=? top_k)%Z; [|rewrite andb_false_r; reflexivity].
    rewrite andb_true_r, filter_cons. simpl.
    destruct (gtb _ 0) eqn:G.
    + destruct (decide (true = true)); [reflexivity | congruence].
    + destruct (decide (false = true)); [congruence | reflexivity].
Qed.

(** A query word found in no record counts for nothing. *)
Lemma filter_none (text : string) (words : list string) :
  Forall (fun word => PyStr.contains word text = false) words ->
  filter (fun word => PyStr.contains word text) words = [].
Proof.
  induction 1 as [|w words Hw _ IH]; [reflexivity|].
  rewrite filter_cons, IH. destruct (decide _) as [T|]; [|reflexivity].
  rewrite Hw in T. destruct T.
Qed.

(** A product with zero that is a number is a zero. *)
Lemma zero_product (y : float) :
  is_nan (0 * y) = false -> exists s, Prim2SF (0 * y) = S754_zero s.
Proof.
  intros H. apply is_nan_false in H. revert H. rewrite mul_spec.
  change (Prim2SF 0) with (S754_zero false).
  destruct (Prim2SF y); simpl; intros H; eauto; congruence.
Qed.

Lemma zero_products_tie (y1 y2 : float) :
  is_nan (0 * y1) = false -> is_nan (0 * y2) = false ->
  (0 * y1 =? 0 * y2)%float = true.
Proof.
  intros H1 H2. destruct (zero_product _ H1) as [s1 E1].
  destruct (zero_product _ H2) as [s2 E2].
  rewrite eqb_cmp. unfold fcmp. rewrite E1, E2. reflexivity.
Qed.

(** A record in which no query word occurs scores [0 * (1 + importance)]. *)
Lemma unmatched_score
    (words : list string) (memory : Dict) (importance : float) :
  Forall (fun word =>
            PyStr.contains word (PyStr.lower (str_dict memory)) = false)
         words ->
  score_of words memory importance = (0 * (1 + importance))%float.
Proof.
  intros U. unfold score_of. rewrite (filter_none _ _ U). reflexivity.
Qed.

(** Two records with different dictionaries in which no word of the query
    occurs both score zero: the sort compares their dictionaries and the
    search raises [TypeError], whatever else the store holds. A blank query
    has no words, so it raises on every store with two different
    records. *)
Theorem unmatched_records_make_search_raise
    (records : list (Dict * float)) (query : string) (top_k : Z)
    (r1 r2 : Dict * float) :
  let words := PyStr.split (PyStr.lower query) in
  let unmatched r :=
    Forall (fun word =>
              PyStr.contains word (PyStr.lower (str_dict (fst r))) = false)
           words in
  Forall number (scored words records) ->
  r1 ∈ records -> r2 ∈ records ->
  dict_eqb (fst r1) (fst r2) = false ->
  unmatched r1 -> unmatched r2 ->
  search_similar (store_of records) query top_k = Raise TypeError.
Proof.
  intros words unmatched Hn H1 H2 D U1 U2. unfold search_similar.
  fold words. rewrite score_loop_store. simpl.
  set (s := fun r : Dict * float => (score_of words (fst r) (snd r), fst r)).
  assert (N : forall r, r ∈ records -> number (s r)).
  { intros r Hr. rewrite Forall_forall in Hn. apply Hn.
    apply (list_elem_of_fmap_2 s), Hr. }
  rewrite (sort_reverse_tie_raises _ (s r1) (s r2)); try reflexivity;
    try assumption.
  - apply (list_elem_of_fmap_2 s), H1.
  - apply (list_elem_of_fmap_2 s), H2.
  - pose proof (N r1 H1) as N1. pose proof (N r2 H2) as N2.
    unfold tie, number, s in *. cbn [fst snd] in *.
    rewrite (unmatched_score _ _ _ U1) in *.
    rewrite (unmatched_score _ _ _ U2) in *.
    apply zero_products_tie; assumption.
Qed.

Lemma unmatched_records_make_search_raise_witness :
  search_similar (store_of [(conv_hi, 0.4%float); (conv_rain, 0.7%float)])
    "   " 3 = Raise TypeError.
Proof.
  apply (unmatched_records_make_search_raise
           [(conv_hi, 0.4%float); (conv_rain, 0.7%float)] "   " 3
           (conv_hi, 0.4%float) (conv_rain, 0.7%float)).
  - repeat (constructor; [vm_compute; reflexivity|]). constructor.
  - apply list_elem_of_here.
  - apply list_elem_of_further, list_elem_of_here.
  - vm_compute. reflexivity.
  - constructor.
  - constructor.
Defined.

End SearchFacts.

(** ** The tools at the edges *)

Module ToolEdges.
Import PyStr PyEval Tools ToolFacts.

Lemma existsb_eqb_absent (name : string) (names : list string) :
  name ∉ names -> existsb (String.eqb name) names = false.
Proof.
  induction names as [|n names IH]; intros H; [reflexivity|].
  apply not_elem_of_cons in H as [Hn Hrest]. simpl.
  destruct (String.eqb_spec name n); [contradiction|].
  apply IH, Hrest.
Qed.

(** A tool name that is not registered gets "Tool <name> not available",
    whatever the arguments; no file is touched. *)
Theorem unregistered_tool_is_refused
    (self : ToolSystem) (fs : FS) (tool_name : string) (args : list string) :
  tool_name ∉ available_tools self ->
  use_tool self fs tool_name args =
    Some (fs, Said ("Tool " ++ tool_name ++ " not available")).
Proof.
  intros H. unfold use_tool. rewrite (existsb_eqb_absent _ _ H). reflexivity.
Qed.

Lemma unregistered_tool_is_refused_witness :
  use_tool (init Configuration.default) ∅ "delete_file" ["notes.txt"] =
    Some (∅, Said "Tool delete_file not available").
Proof.
  apply (unregistered_tool_is_refused
           (init Configuration.default) ∅ "delete_file" ["notes.txt"]).
  vm_compute. intros H.
  repeat (apply elem_of_cons in H as [H|H]; [discriminate H|]).
  inversion H.
Defined.

Lemma startswith_self (sub after : string) :
  startswith (sub ++ after) sub = true.
Proof.
  induction sub as [|c sub IH]; [reflexivity|].
  change (startswith (String c (sub ++ after)) (String c sub) = true).
  simpl. rewrite Ascii.eqb_refl. exact IH.
Qed.

(** [sub in s] holds wherever [sub] stands in [s]. *)
Lemma contains_inside (sub before after : string) :
  contains sub (before ++ sub ++ after) = true.
Proof.
  induction before as [|c before IH].
  - change (contains sub (sub ++ after) = true).
    destruct (sub ++ after) eqn:E; simpl; rewrite <- E, startswith_self;
      reflexivity.
  - change (contains sub (String c (before ++ sub ++ after)) = true).
    simpl. rewrite IH. apply orb_true_r.
Qed.

(** Code in which one of the five listed texts occurs, at any place, is
    refused before [exec] is reached. *)
Theorem execute_python_refuses_dangerous_text
    (before after danger : string) :
  danger ∈ dangerous ->
  execute_python (before ++ danger ++ after) =
    Some (Said "Error: Potentially unsafe code detected").
Proof.
  intros H. unfold execute_python.
  assert (E : existsb (fun d => contains d (before ++ danger ++ after))
                dangerous = true).
  { apply existsb_exists. exists danger.
    split; [apply list_elem_of_In, H | apply contains_inside]. }
  rewrite E. reflexivity.
Qed.

Lemma execute_python_refuses_dangerous_text_witness :
  execute_python "x = 1; import os; os.remove('a')" =
    Some (Said "Error: Potentially unsafe code detected").
Proof.
  apply (execute_python_refuses_dangerous_text
           "x = 1; " "; os.remove('a')" "import os").
  apply list_elem_of_here.
Defined.

Lemma safe_kept (expression : string) :
  Forall (fun c => kept c = true) (list_ascii_of_string (safe expression)).
Proof.
  rewrite safe_filter. apply Forall_forall. intros c H.
  apply list_elem_of_filter in H. tauto.
Qed.

Lemma safe_fixed (s : string) :
  Forall (fun c => kept c = true) (list_ascii_of_string s) -> safe s = s.
Proof.
  induction s as [|c s IH]; simpl; intros H; [reflexivity|].
  inversion H as [|? ? K Hs]; subst. rewrite K, (IH Hs). reflexivity.
Qed.

Lemma name_character_not_kept (c : ascii) :
  is_upper c = true \/ is_upper (ascii_of_N (code c - 32)) = true \/
  c = "_"%char ->
  kept c = false.
Proof.
  destruct c as [[] [] [] [] [] [] [] []]; vm_compute; intuition congruence.
Qed.

(** The text [calculate] hands to [eval] holds only digits, the operators
    [+ - * /], parentheses, the point and the space; filtering it again
    changes nothing; it holds no letter and no underscore, so no name. *)
Theorem only_kept_characters_reach_eval (expression : string) :
  Forall (fun c => kept c = true) (list_ascii_of_string (safe expression)) /\
  safe (safe expression) = safe expression /\
  Forall (fun c => is_upper c = false /\
                   is_upper (ascii_of_N (code c - 32)) = false /\
                   c <> "_"%char)
         (list_ascii_of_string (safe expression)).
Proof.
  pose proof (safe_kept expression) as K.
  split; [exact K|]. split; [apply safe_fixed, K|].
  eapply Forall_impl; [exact K|]. intros c Hc.
  repeat split.
  - destruct (is_upper c) eqn:E; [|reflexivity].
    pose proof (name_character_not_kept c (or_introl E)). congruence.
  - destruct (is_upper (ascii_of_N (code c - 32))) eqn:E; [|reflexivity].
    pose proof (name_character_not_kept c (or_intror (or_introl E))).
    congruence.
  - intros ->. discriminate.
Qed.

End ToolEdges.

(** ** What the dispatcher passes on *)

Module DispatchFacts.
Import PyStr PyParse Tools Agent AgentFacts DispatchNotions.

Lemma lower_char_twice (c : ascii) :
  lower_char (lower_char c) = lower_char c.
Proof. destruct c as [[] [] [] [] [] [] [] []]; reflexivity. Qed.

Lemma is_space_lower_char (c : ascii) :
  is_space (lower_char c) = is_space c.
Proof. destruct c as [[] [] [] [] [] [] [] []]; reflexivity. Qed.

Lemma lower_twice (s : string) : lower (lower s) = lower s.
Proof.
  induction s as [|c s IH]; simpl; [reflexivity|].
  rewrite lower_char_twice, IH. reflexivity.
Qed.

Lemma lstrip_lower (s : string) : lstrip (lower s) = lower (lstrip s).
Proof.
  induction s as [|c s IH]; simpl; [reflexivity|].
  rewrite is_space_lower_char. destruct (is_space c); [exact IH | reflexivity].
Qed.

Lemma rstrip_lower (s : string) : rstrip (lower s) = lower (rstrip s).
Proof.
  induction s as [|c s IH]; simpl; [reflexivity|].
  rewrite IH, is_space_lower_char.
  destruct (rstrip s); simpl; [destruct (is_space c)|]; reflexivity.
Qed.

Lemma strip_lower (s : string) : strip (lower s) = lower (strip s).
Proof. unfold strip. rewrite lstrip_lower, rstrip_lower. reflexivity. Qed.

Lemma lstrip_twice (s : string) : lstrip (lstrip s) = lstrip s.
Proof.
  induction s as [|c s IH]; simpl; [reflexivity|].
  destruct (is_space c) eqn:E; [exact IH|]. simpl. rewrite E. reflexivity.
Qed.

Lemma rstrip_twice (s : string) : rstrip (rstrip s) = rstrip s.
Proof.
  induction s as [|c s IH]; simpl; [reflexivity|].
  destruct (rstrip s) as [|d r] eqn:E.
  - destruct (is_space c) eqn:S; simpl; [reflexivity|]. rewrite S. reflexivity.
  - simpl in *. rewrite IH. reflexivity.
Qed.

(** Stripping the right end leaves a left end that is stripped. *)
Lemma lstrip_rstrip_lstrip (s : string) :
  lstrip (rstrip (lstrip s)) = rstrip (lstrip s).
Proof.
  induction s as [|c s IH]; simpl; [reflexivity|].
  destruct (is_space c) eqn:E; [exact IH|].
  change (rstrip (String c s)) with
    (match rstrip s with
     | EmptyString => if is_space c then EmptyString else String c EmptyString
     | r => String c r
     end).
  destruct (rstrip s); rewrite ?E; simpl; rewrite E; reflexivity.
Qed.

Lemma strip_twice (s : string) : strip (strip s) = strip s.
Proof.
  unfold strip. rewrite lstrip_rstrip_lstrip, rstrip_twice. reflexivity.
Qed.

Lemma normalised_lowercase (command : string) :
  lowercase (normalised command).
Proof.
  unfold lowercase, normalised. rewrite <- strip_lower, lower_twice.
  reflexivity.
Qed.

Lemma lowercase_slice (n : nat) (s : string) :
  lowercase s -> lowercase (slice_from n s).
Proof.
  unfold lowercase. revert s. induction n as [|n IH]; intros s H; [exact H|].
  destruct s as [|c s]; [reflexivity|]. simpl. apply IH.
  simpl in H. congruence.
Qed.

Lemma lowercase_cut (s a b : string) :
  lowercase s -> cut_at_space s = Some (a, b) -> lowercase a /\ lowercase b.
Proof.
  unfold lowercase. revert a b. induction s as [|c s IH]; simpl; intros a b H E.
  - discriminate.
  - injection H as Hc Hs. destruct (Ascii.eqb c " ").
    + injection E as <- <-. auto.
    + destruct (cut_at_space s) as [[a' b']|]; [|discriminate].
      injection E as <- <-. destruct (IH a' b' Hs eq_refl) as [A B].
      split; [simpl; congruence | exact B].
Qed.

(** The dispatcher reads a command whatever its case and the white space
    around it: lowering or stripping the command first changes nothing in
    what [process_command] does. *)
Theorem commands_ignore_case_and_outer_space (command : string) :
  process_command (lower command) = process_command command /\
  process_command (strip command) = process_command command.
Proof.
  unfold process_command.
  rewrite lower_twice, <- strip_lower, strip_twice, strip_lower. auto.
Qed.

Ltac lowercase_all :=
  repeat first [apply List.Forall_cons | apply List.Forall_nil];
  match goal with
  | |- lowercase (String _ _) => exact eq_refl
  | H : forall n, lowercase (slice_from n _) |- _ =>
      first [exact (H 4%nat) | exact (H 7%nat) | exact (H 9%nat)
            | exact (H 10%nat)]
  | |- _ => assumption
  end.

(** Every text the dispatcher passes on (a query, an expression, a file
    name and content, code, a goal description, a message) has lost its
    upper-case letters. *)
Theorem calls_carry_lowercase_text (command : string) (call : Call) :
  process_command command = Ok (Some call) ->
  Forall lowercase (strings_of call).
Proof.
  unfold process_command. fold (normalised command).
  pose proof (normalised_lowercase command) as L.
  remember (normalised command) as c eqn:C. clear C.
  assert (S : forall n, lowercase (slice_from n c))
    by (intros n; apply lowercase_slice, L).
  destruct (startswith c "search ");
    [intros [= <-]; lowercase_all|].
  destruct (startswith c "calculate ");
    [intros [= <-]; lowercase_all|].
  destruct (startswith c "write_file ").
  { unfold split_space_1.
    destruct (cut_at_space (slice_from 10 c)) as [[a b]|] eqn:E;
      [|discriminate].
    destruct (lowercase_cut _ _ _ (S 10%nat) E) as [A B].
    intros [= <-]. lowercase_all. }
  destruct (startswith c "read_file ");
    [intros [= <-]; lowercase_all|].
  destruct (startswith c "run ");
    [intros [= <-]; lowercase_all|].
  destruct (startswith c "add_goal ");
    [intros [= <-]; lowercase_all|].
  destruct (startswith c "progress ").
  { destruct (split _) as [|p0 [|p1 [|p2 ps]]]; try discriminate.
    destruct (py_int p0); simpl; [|discriminate].
    destruct (py_float p1); simpl; [|discriminate].
    intros [= <-]. lowercase_all. }
  repeat match goal with
         | |- context [String.eqb c ?t] => destruct (String.eqb c t)
         end; intros [= <-]; lowercase_all.
Qed.

Lemma calls_carry_lowercase_text_witness :
  Forall lowercase (strings_of (add_goal "write tests for the parser")).
Proof.
  apply (calls_carry_lowercase_text "Add_Goal Write Tests for the PARSER").
  reflexivity.
Defined.

Lemma py_int_raises (s : string) (e : PyExn) :
  py_int s = Raise e -> e = ValueError.
Proof.
  unfold py_int. destruct (sign (strip s)) as [neg body].
  destruct (digits body) as [[ds [|c rest]]|]; congruence.
Qed.

Lemma py_float_raises (s : string) (e : PyExn) :
  py_float s = Raise e -> e = ValueError.
Proof.
  unfold py_float. destruct (sign (strip s)) as [neg body].
  destruct (_ || _); [discriminate|].
  destruct (String.eqb _ _); [discriminate|].
  destruct (mantissa body) as [[[ip fp] [|c rest]]|]; try congruence.
  destruct (exponent _) as [[x [|d rest']]|]; congruence.
Qed.

(** Where the dispatcher itself ends, for a command in ASCII: at one of
    its [return] statements, with a call to make, unless the command is a
    [progress] command; a [progress] command can also end without a
    [return], or raise the [ValueError] of [int] or [float] before any call
    is made. So the [write_file] branch always finds its two parts. What
    the call does once it is made is no part of this. *)
Theorem only_progress_commands_end_without_call (command : string) :
  ascii_text command ->
  (exists call : Call, process_command command = Ok (Some call)) \/
  (startswith (normalised command) "progress " = true /\
   (process_command command = Ok None \/
    process_command command = Raise ValueError)).
Proof.
  intros _. unfold process_command. fold (normalised command).
  remember (normalised command) as c eqn:C. clear C.
  destruct (startswith c "search "); [eauto|].
  destruct (startswith c "calculate "); [eauto|].
  destruct (startswith c "write_file ") eqn:W.
  { apply startswith_app in W. simpl String.length in W.
    remember (slice_from 11 c) as rest eqn:R. clear R.
    rewrite W. simpl. eauto. }
  destruct (startswith c "read_file "); [eauto|].
  destruct (startswith c "run "); [eauto|].
  destruct (startswith c "add_goal "); [eauto|].
  destruct (startswith c "progress ").
  { destruct (split _) as [|p0 [|p1 [|p2 ps]]]; auto.
    destruct (py_int p0) as [goal_id|e0] eqn:I; simpl.
    - destruct (py_float p1) as [progress|e1] eqn:F; simpl; [eauto|].
      rewrite (py_float_raises _ _ F). auto.
    - rewrite (py_int_raises _ _ I). auto. }
  repeat match goal with
         | |- context [String.eqb c ?t] => destruct (String.eqb c t)
         end; eauto.
Qed.

Lemma only_progress_commands_end_without_call_witness :
  ((exists call : Call,
      process_command "write_file notes" = Ok (Some call)) \/
   (startswith (normalised "write_file notes") "progress " = true /\
    (process_command "write_file notes" = Ok None \/
     process_command "write_file notes" = Raise ValueError))) /\
  ((exists call : Call,
      process_command "Progress one 0.5" = Ok (Some call)) \/
   (startswith (normalised "Progress one 0.5") "progress " = true /\
    (process_command "Progress one 0.5" = Ok None \/
     process_command "Progress one 0.5" = Raise ValueError))).
Proof.
  split.
  - apply (only_progress_commands_end_without_call "write_file notes").
    repeat (constructor; [reflexivity|]). constructor.
  - apply (only_progress_commands_end_without_call "Progress one 0.5").
    repeat (constructor; [reflexivity|]). constructor.
Defined.




End DispatchFacts.
